(** * The MCP tool bridge of mini_agent (tools/mcp_loader.py)

    A shallow embedding of the loader of MCP tool servers: the resolution of
    the configured environment, the connection to one server
    ([MCPServerConnection]), the wrapper of a discovered tool ([MCPTool]),
    the bulk loader [load_mcp_tools_async] and the bulk teardown
    [cleanup_mcp_connections].

    Python objects become records, [dict]s with string keys become
    [gmap string _], [print] and the calls to the protocol library become
    events of a trace, exceptions become the [Raises] outcome of a
    computation, and [try]/[except]/[finally] become combinators of a small
    monad that threads the mutated object, the trace and the outcome. *)

From Stdlib Require Import String Ascii List Bool.
From stdpp Require Import base strings gmap list.

Local Open Scope string_scope.
Local Open Scope list_scope.

(** ** Python values *)

Module Py.

(** [bool(s)] of a [str]: the empty string is falsy. *)
Definition truthy (s : string) : bool :=
  match s with
  | EmptyString => false
  | String _ _ => true
  end.

(** [s.startswith(p)]. *)
Definition startswith (s p : string) : bool := String.prefix p s.

(** [needle in s] on [str]. *)
Fixpoint contains (needle s : string) : bool :=
  String.prefix needle s
  || match s with
     | EmptyString => false
     | String _ rest => contains needle rest
     end.

(** The one-character string written ['\n'] in the source. *)
Definition newline : string := String (ascii_of_nat 10) EmptyString.

(** A [str] is kept as its UTF-8 encoding. A byte of the form 10xxxxxx
    continues a character; any other byte starts one. *)
Definition continues_character (c : ascii) : bool :=
  match c with
  | Ascii _ _ _ _ _ _ b6 b7 => b7 && negb b6
  end.

(** [len(s)]: the number of characters. *)
Fixpoint len (s : string) : nat :=
  match s with
  | EmptyString => 0
  | String c rest => (if continues_character c then 0 else 1) + len rest
  end.

(** [s[:n]]: the first [n] characters. *)
Fixpoint slice_to (n : nat) (s : string) : string :=
  match s with
  | EmptyString => EmptyString
  | String c rest =>
      if continues_character c then String c (slice_to n rest)
      else
        match n with
        | 0 => EmptyString
        | S n' => String c (slice_to n' rest)
        end
  end.

(** [sep.join(parts)]. *)
Definition join (sep : string) (parts : list string) : string :=
  String.concat sep parts.

(** The exception classes that the handlers of the module tell apart.
    [asyncio.CancelledError] derives from [BaseException] and not from
    [Exception]; [RuntimeError] derives from [Exception];
    [OtherException] stands for every other class below [Exception];
    [SystemExiting] stands for the system-exiting exceptions
    ([KeyboardInterrupt], [SystemExit], [GeneratorExit]), which derive from
    [BaseException] only. *)
Inductive ExcClass := CancelledError | RuntimeError | OtherException | SystemExiting.

(** An exception instance: its class and [str(e)]. *)
Record Exc := { exc_class : ExcClass; exc_str : string }.

(** [isinstance(e, Exception)]. *)
Definition is_Exception (e : Exc) : bool :=
  match exc_class e with
  | RuntimeError | OtherException => true
  | CancelledError | SystemExiting => false
  end.

(** [isinstance(e, RuntimeError)]. *)
Definition is_RuntimeError (e : Exc) : bool :=
  match exc_class e with
  | RuntimeError => true
  | _ => false
  end.

(** [isinstance(e, asyncio.CancelledError)]. *)
Definition is_CancelledError (e : Exc) : bool :=
  match exc_class e with
  | CancelledError => true
  | _ => false
  end.

(** The result of evaluating an expression: a value or a raised exception. *)
Inductive Outcome (A : Type) :=
| Returns (a : A)
| Raises (e : Exc).
Arguments Returns {A} a.
Arguments Raises {A} e.

End Py.
Export Py.

(** ** The protocol library (mcp) at its interface *)

#[local] Set Warnings "-register-all".

(** JSON documents: the parameter schema of a tool, the arguments of a call. *)
Inductive JSON :=
| JNull
| JBool (b : bool)
| JNumber (n : Z)
| JString (s : string)
| JArray (items : list JSON)
| JObject (fields : list (string * JSON)).

(** [StdioServerParameters]: what the process launcher receives. *)
Record StdioServerParameters := {
  sp_command : string;
  sp_args : list string;
  sp_env : option (gmap string string)
}.

(** One item of [result.content]: its [text] attribute when it has one
    ([hasattr(item, 'text')]) and its rendering [str(item)]. *)
Record ContentItem := {
  item_text : option string;
  item_str : string
}.

(** The response to [call_tool]; [isError = None] when the response has no
    such attribute. *)
Record CallToolResult := {
  result_content : list ContentItem;
  isError : option bool
}.

(** A tool descriptor as listed by the server; [inputSchema = None] when the
    descriptor has no such attribute. *)
Record ToolDescriptor := {
  tool_name : string;
  tool_description : option string;
  inputSchema : option JSON
}.

Record ListToolsResult := { listed_tools : list ToolDescriptor }.

(** A [ClientSession]: the outcome of each request the module sends on it. *)
Record ClientSession := {
  initialize : Outcome unit;
  list_tools : Outcome ListToolsResult;
  call_tool : string -> list (string * JSON) -> Outcome CallToolResult
}.

(** The two context managers a connection enters. *)
Inductive Resource := StdioClient | Session.

(** An entered context manager, as [AsyncExitStack] keeps it: whose it is,
    what it holds and the outcome of its [__aexit__]. *)
Record ContextManager := {
  cm_owner : string;
  cm_resource : Resource;
  cm_aexit : Outcome unit
}.

(** The behaviour of the server process launched for one connection. *)
Record ServerBehaviour := {
  stdio_aenter : Outcome unit;
  stdio_aexit : Outcome unit;
  session_aenter : Outcome ClientSession;
  session_aexit : Outcome unit
}.

(** The outside world: the behaviour of the process that [stdio_client]
    launches for the connection of a given name with given parameters. *)
Definition World := string -> StdioServerParameters -> ServerBehaviour.

(** ** Traces *)

(** The [print] calls of the module, by call site. *)
Inductive Message :=
| MsgConnected (server : string) (ntools : nat)
| MsgTool (tool desc : string)
| MsgConnectFailed (server : string) (e : Exc)
| MsgTraceback (e : Exc)
| MsgConfigNotFound (path : string)
| MsgNoServers
| MsgSkipDisabled (server : string)
| MsgNoCommand (server : string)
| MsgTotal (ntools : nat)
| MsgLoadError (e : Exc).

Inductive Event :=
| Printed (m : Message)
| Spawn (server : string) (params : StdioServerParameters)
| OpenSession (server : string)
| Handshake (server : string)
| Discover (server : string)
| Release (server : string) (r : Resource).

(** ** Computations

    A computation runs on a mutable object of type [S]: it appends events to
    the trace, leaves the object in a new state and returns or raises. *)

Definition M (S A : Type) : Type := S -> list Event * S * Outcome A.

Module Run.

Definition ret {S A} (a : A) : M S A := fun s => ([], s, Returns a).

Definition raise {S A} (e : Exc) : M S A := fun s => ([], s, Raises e).

Definition bind {S A B} (m : M S A) (k : A -> M S B) : M S B :=
  fun s =>
    let '(ev1, s1, o) := m s in
    match o with
    | Raises e => (ev1, s1, Raises e)
    | Returns a => let '(ev2, s2, o2) := k a s1 in (ev1 ++ ev2, s2, o2)
    end.

Definition get {S} : M S S := fun s => ([], s, Returns s).

Definition modify {S} (f : S -> S) : M S unit := fun s => ([], f s, Returns tt).

Definition emit {S} (ev : Event) : M S unit := fun s => ([ev], s, Returns tt).

Definition print {S} (m : Message) : M S unit := emit (Printed m).

(** An awaited call to the outside: its outcome is given. *)
Definition await {S A} (o : Outcome A) : M S A := fun s => ([], s, o).

(** [try: m  except C1 as e: h1 e  except C2 as e: h2 e ...]: the first
    clause whose class test accepts the exception handles it. *)
Fixpoint dispatch {S A} (clauses : list ((Exc -> bool) * (Exc -> M S A))) (e : Exc) : M S A :=
  match clauses with
  | [] => raise e
  | (accepts, handler) :: others =>
      if accepts e then handler e else dispatch others e
  end.

Definition try_except {S A} (m : M S A)
    (clauses : list ((Exc -> bool) * (Exc -> M S A))) : M S A :=
  fun s =>
    let '(ev1, s1, o) := m s in
    match o with
    | Returns a => (ev1, s1, Returns a)
    | Raises e => let '(ev2, s2, o2) := dispatch clauses e s1 in (ev1 ++ ev2, s2, o2)
    end.

(** [try: m  finally: fin]: [fin] runs whatever [m] did, and an exception
    of [m] that [fin] does not replace is raised again after it. *)
Definition try_finally {S A} (m : M S A) (fin : M S unit) : M S A :=
  fun s =>
    let '(ev1, s1, o) := m s in
    let '(ev2, s2, o2) := fin s1 in
    (ev1 ++ ev2, s2, match o2 with Raises e => Raises e | Returns _ => o end).

(** [for x in xs: body x]. *)
Fixpoint for_in {S X} (xs : list X) (body : X -> M S unit) : M S unit :=
  match xs with
  | [] => ret tt
  | x :: rest => bind (body x) (fun _ => for_in rest body)
  end.

(** [for obj in objs: body] where [body] mutates the object it visits; the
    list holds the objects themselves, so it sees their new states. *)
Fixpoint for_each {X} (body : M X unit) (objs : list X) : list Event * list X * Outcome unit :=
  match objs with
  | [] => ([], [], Returns tt)
  | obj :: rest =>
      let '(ev1, obj', o) := body obj in
      match o with
      | Raises e => (ev1, obj' :: rest, Raises e)
      | Returns _ =>
          let '(ev2, rest', o2) := for_each body rest in
          (ev1 ++ ev2, obj' :: rest', o2)
      end
  end.

(** A loop that rebinds a local variable: [body x acc] gives its next value. *)
Fixpoint for_fold {S X B} (xs : list X) (acc : B) (body : X -> B -> M S B) : M S B :=
  match xs with
  | [] => ret acc
  | x :: rest => bind (body x acc) (fun acc' => for_fold rest acc' body)
  end.

(** A method called on an object that the state does not hold (yet): the
    caller gets the object as the call left it, with the result. *)
Definition call_on {S X A} (obj : X) (m : M X A) : M S (X * A) :=
  fun s =>
    let '(evs, obj', o) := m obj in
    (evs, s,
     match o with
     | Returns a => Returns (obj', a)
     | Raises e => Raises e
     end).

End Run.
Import Run.

Declare Scope py_scope.
Delimit Scope py_scope with py.
Notation "x <- m ;; k" := (bind m (fun x => k))
  (at level 100, m at next level, right associativity) : py_scope.
Notation "m ;; k" := (bind m (fun _ => k))
  (at level 100, right associativity) : py_scope.
Local Open Scope py_scope.

(** ** contextlib.AsyncExitStack *)

(** The exit callbacks pushed so far, the most recent first. *)
Definition AsyncExitStack := list ContextManager.

(** [enter_async_context(cm)]: await [cm.__aenter__()]; when it returns,
    push [cm.__aexit__]; when it raises, nothing is pushed. *)
Definition enter_async_context {A} (cm : ContextManager) (aenter : Outcome A)
    : M AsyncExitStack A :=
  fun stack =>
    match aenter with
    | Returns a => ([], cm :: stack, Returns a)
    | Raises e => ([], stack, Raises e)
    end.

(** The loop of [__aexit__]: every callback is popped and awaited, in the
    reverse order of entry, also after one of them raised; the exception
    raised last is the pending one. *)
Fixpoint unwind (callbacks : list ContextManager) (pending : option Exc)
    : list Event * option Exc :=
  match callbacks with
  | [] => ([], pending)
  | cm :: rest =>
      let pending' :=
        match cm_aexit cm with
        | Returns _ => pending
        | Raises e => Some e
        end in
      let '(evs, final) := unwind rest pending' in
      (Release (cm_owner cm) (cm_resource cm) :: evs, final)
  end.

(** [aclose()]: unwind the stack, which is left empty, then raise the
    pending exception if there is one. *)
Definition aclose : M AsyncExitStack unit :=
  fun stack =>
    let '(evs, pending) := unwind stack None in
    (evs, [],
     match pending with
     | Some e => Raises e
     | None => Returns tt
     end).

(** ** class MCPTool *)

(** Modelled from the spec: [ToolResult] is declared in tools/base.py, which
    is not among the sources; its fields are those of the specification's
    [InvocationResult] (ok, content, errorMessage) under the keyword names
    that [execute] passes to the constructor. *)
Record ToolResult := {
  success : bool;
  content : string;
  error : option string
}.

Module MCPTool.

Record t := {
  _name : string;
  _description : string;
  _parameters : JSON;
  _session : ClientSession
}.

(** The loop over [result.content] that fills [content_parts]. *)
Definition collect_parts (items : list ContentItem) : list string :=
  fold_left
    (fun content_parts item =>
       match item_text item with
       | Some text => content_parts ++ [text]
       | None => content_parts ++ [item_str item]
       end)
    items [].

(** [async def execute(self, **kwargs) -> ToolResult]. *)
Definition execute (self : t) (kwargs : list (string * JSON)) : M unit ToolResult :=
  try_except
    (result <- await (call_tool (_session self) (_name self) kwargs);;
     let content_parts := collect_parts (result_content result) in
     let content_str := join newline content_parts in
     let is_error := match isError result with Some b => b | None => false end in
     ret {| success := negb is_error;
            content := content_str;
            error := if negb is_error then None else Some "Tool returned error" |})
    [(is_Exception,
      fun e =>
        ret {| success := false;
               content := "";
               error := Some ("MCP tool execution failed: " +:+ exc_str e) |})].

End MCPTool.

(** ** class MCPServerConnection *)

Module MCPServerConnection.

Record t := {
  name : string;
  command : string;
  args : list string;
  env : gmap string string;
  session : option ClientSession;
  exit_stack : option AsyncExitStack;
  tools : list MCPTool.t
}.

Definition set_session (v : option ClientSession) (self : t) : t :=
  {| name := name self; command := command self; args := args self; env := env self;
     session := v; exit_stack := exit_stack self; tools := tools self |}.

Definition set_exit_stack (v : option AsyncExitStack) (self : t) : t :=
  {| name := name self; command := command self; args := args self; env := env self;
     session := session self; exit_stack := v; tools := tools self |}.

Definition set_tools (v : list MCPTool.t) (self : t) : t :=
  {| name := name self; command := command self; args := args self; env := env self;
     session := session self; exit_stack := exit_stack self; tools := v |}.

(** [__init__]: [self.env = env or {}]. *)
Definition __init__ (name0 command0 : string) (args0 : list string)
    (env0 : option (gmap string string)) : t :=
  {| name := name0; command := command0; args := args0;
     env := match env0 with
            | Some e => if decide (e = ∅) then ∅ else e
            | None => ∅
            end;
     session := None; exit_stack := None; tools := [] |}.

(** A method of [self.exit_stack] called on the connection. *)
Definition on_exit_stack {A} (m : M AsyncExitStack A) : M t A :=
  fun self =>
    match exit_stack self with
    | Some stack =>
        let '(evs, stack', o) := m stack in
        (evs, set_exit_stack (Some stack') self, o)
    | None =>
        ([], self,
         Raises {| exc_class := OtherException;
                   exc_str := "'NoneType' object has no attribute" |})
    end.

(** [StdioServerParameters(command=self.command, args=self.args,
    env=self.env if self.env else None)]. *)
Definition server_params (self : t) : StdioServerParameters :=
  {| sp_command := command self;
     sp_args := args self;
     sp_env := if decide (env self = ∅) then None else Some (env self) |}.

(** The slice [desc[:60] if len(desc) > 60 else desc]. *)
Definition short_description (desc : string) : string :=
  if Nat.ltb 60 (len desc) then slice_to 60 desc else desc.

(** [async def connect(self) -> bool]. *)
Definition connect (world : World) : M t bool :=
  try_except
    (self <- get;;
     let params := server_params self in
     let process := world (name self) params in
     modify (set_exit_stack (Some []));;
     emit (Spawn (name self) params);;
     on_exit_stack
       (enter_async_context
          {| cm_owner := name self; cm_resource := StdioClient;
             cm_aexit := stdio_aexit process |}
          (stdio_aenter process));;
     emit (OpenSession (name self));;
     session0 <- on_exit_stack
       (enter_async_context
          {| cm_owner := name self; cm_resource := Session;
             cm_aexit := session_aexit process |}
          (session_aenter process));;
     modify (set_session (Some session0));;
     emit (Handshake (name self));;
     await (initialize session0);;
     emit (Discover (name self));;
     tools_list <- await (list_tools session0);;
     for_in (listed_tools tools_list)
       (fun tool =>
          let parameters :=
            match inputSchema tool with
            | Some schema => schema
            | None => JObject []
            end in
          let mcp_tool :=
            {| MCPTool._name := tool_name tool;
               MCPTool._description :=
                 match tool_description tool with
                 | Some d => if truthy d then d else ""
                 | None => ""
                 end;
               MCPTool._parameters := parameters;
               MCPTool._session := session0 |} in
          modify (fun self => set_tools (tools self ++ [mcp_tool]) self));;
     self <- get;;
     print (MsgConnected (name self) (length (tools self)));;
     for_in (tools self)
       (fun tool =>
          print (MsgTool (MCPTool._name tool)
                         (short_description (MCPTool._description tool))));;
     ret true)
    [(is_Exception,
      fun e =>
        self <- get;;
        print (MsgConnectFailed (name self) e);;
        match exit_stack self with
        | Some _ =>
            on_exit_stack aclose;;
            modify (set_exit_stack None)
        | None => ret tt
        end;;
        print (MsgTraceback e);;
        ret false)].

(** [async def disconnect(self)]. *)
Definition disconnect : M t unit :=
  self <- get;;
  match exit_stack self with
  | Some _ =>
      try_finally
        (try_except
           (on_exit_stack aclose)
           [(is_CancelledError, fun _ => ret tt);
            (is_RuntimeError,
             fun e =>
               if negb (contains "cancel scope" (exc_str e))
                  && negb (contains "different task" (exc_str e))
               then raise e
               else ret tt);
            (is_Exception, fun _ => ret tt)])
        (modify (set_exit_stack None);;
         modify (set_session None))
  | None => ret tt
  end.

End MCPServerConnection.

(** ** Resolution of the configured environment (load_mcp_tools_async, lines 245-259) *)

(** [os.getenv(key)] over the ambient environment [os.environ], as it is
    once the module has loaded its [.env] file at import time. *)
Definition os_getenv (environ : gmap string string) (key : string) : option string :=
  environ !! key.

(** The body of the loop over [env.items()]: the value assigned to
    [resolved_env[key]]. *)
Definition resolve_value (environ : gmap string string) (key value : string) : string :=
  if negb (truthy value) || startswith value "YOUR_" || startswith value "your-" then
    let env_value := os_getenv environ key in
    match env_value with
    | Some env_value => if truthy env_value then env_value else value
    | None => value
    end
  else value.

(** The loop that fills [resolved_env], one assignment per item of [env]. *)
Definition resolve_env (environ env : gmap string string) : gmap string string :=
  map_fold
    (fun key value resolved_env => <[key := resolve_value environ key value]> resolved_env)
    ∅ env.

(** ** The module: configuration, registry, bulk load and bulk teardown *)

(** One value of ["mcpServers"]; a field is [None] when the key is absent. *)
Record ServerConfig := {
  cfg_disabled : option bool;
  cfg_command : option string;
  cfg_args : option (list string);
  cfg_env : option (gmap string string)
}.

(** What is found at a path: [config_file.exists()] raises (a name too
    long, a directory that may not be searched), or there is no file, or
    there is a file whose reading ([open] and [json.load]) returns the
    document or raises. The document is kept as its ["mcpServers"] entry, in
    the order of the file; [None] when the key is absent. *)
Inductive ConfigFile :=
| NoFile
| File (contents : Outcome (option (list (string * ServerConfig))))
| Inaccessible (e : Exc).

(** The module-level variables. *)
Record Globals := { _mcp_connections : list MCPServerConnection.t }.

Definition on_connections {A}
    (m : list MCPServerConnection.t -> list Event * list MCPServerConnection.t * Outcome A)
    : M Globals A :=
  fun g =>
    let '(evs, conns, o) := m (_mcp_connections g) in
    (evs, {| _mcp_connections := conns |}, o).

(** The body of the loop [for server_name, server_config in
    mcp_servers.items()], with the local [all_tools] passed along. *)
Definition load_server (world : World) (environ : gmap string string)
    (item : string * ServerConfig) (all_tools : list MCPTool.t)
    : M Globals (list MCPTool.t) :=
  let '(server_name, server_config) := item in
  if match cfg_disabled server_config with Some b => b | None => false end then
    print (MsgSkipDisabled server_name);;
    ret all_tools
  else
    let command := cfg_command server_config in
    let args := match cfg_args server_config with Some a => a | None => [] end in
    let env := match cfg_env server_config with Some e => e | None => ∅ end in
    match command with
    | Some command =>
        if truthy command then
          let resolved_env := resolve_env environ env in
          let connection :=
            MCPServerConnection.__init__ server_name command args (Some resolved_env) in
          r <- call_on connection (MCPServerConnection.connect world);;
          let '(connection, success) := r : MCPServerConnection.t * bool in
          if success then
            modify (fun g => {| _mcp_connections := _mcp_connections g ++ [connection] |});;
            ret (all_tools ++ MCPServerConnection.tools connection)
          else ret all_tools
        else
          print (MsgNoCommand server_name);;
          ret all_tools
    | None =>
        print (MsgNoCommand server_name);;
        ret all_tools
    end.

(** [async def load_mcp_tools_async(config_path) -> list[Tool]]. *)
Definition load_mcp_tools_async (world : World) (environ : gmap string string)
    (files : string -> ConfigFile) (config_path : string)
    : M Globals (list MCPTool.t) :=
  match files config_path with
  | Inaccessible e => raise e
  | NoFile =>
      print (MsgConfigNotFound config_path);;
      ret []
  | File contents =>
      try_except
        (config <- await contents;;
         let mcp_servers := match config with Some servers => servers | None => [] end in
         match mcp_servers with
         | [] =>
             print MsgNoServers;;
             ret []
         | _ :: _ =>
             all_tools <- for_fold mcp_servers [] (load_server world environ);;
             print (MsgTotal (length all_tools));;
             ret all_tools
         end)
        [(is_Exception,
          fun e =>
            print (MsgLoadError e);;
            print (MsgTraceback e);;
            ret [])]
  end.

(** The body of the loop of [cleanup_mcp_connections]: the guarded call
    [try: await connection.disconnect()  except (asyncio.CancelledError,
    Exception): pass]. *)
Definition guarded_disconnect : M MCPServerConnection.t unit :=
  try_except MCPServerConnection.disconnect
    [(fun e => is_CancelledError e || is_Exception e, fun _ => ret tt)].

(** [async def cleanup_mcp_connections()]. *)
Definition cleanup_mcp_connections : M Globals unit :=
  on_connections (for_each guarded_disconnect);;
  modify (fun _ => {| _mcp_connections := [] |}).

(** ** The vocabulary of the specification *)

(** A value is placeholder-shaped when it begins with a recognised
    placeholder prefix. *)
Definition placeholder_shaped (value : string) : Prop :=
  exists rest, value = "YOUR_" +:+ rest \/ value = "your-" +:+ rest.

(** The reading of "the ambient value is substituted if the ambient
    environment defines the key, otherwise the original value passes
    through", for one entry of the configured environment. *)
Definition ambient_substituted (environ env : gmap string string) (key value : string) : Prop :=
  match environ !! key with
  | Some ambient => resolve_env environ env !! key = Some ambient
  | None => resolve_env environ env !! key = Some value
  end.

(** A content fragment contributes its text when it carries one and its
    generic rendering otherwise. *)
Definition render_fragment (item : ContentItem) : string :=
  match item_text item with
  | Some text => text
  | None => item_str item
  end.

(** The reading of "an exception raised during the call is converted to a
    failed result whose error message is the exception's message". *)
Definition converted_to_failure (tool : MCPTool.t) (kwargs : list (string * JSON))
    (e : Exc) : Prop :=
  exists r, MCPTool.execute tool kwargs tt = ([], tt, Returns r)
            /\ success r = false /\ error r = Some (exc_str e).

(** The stages of [connect] at which the protocol library can fail, and the
    context managers already entered when it does, the most recent first. *)
Inductive Stage := AtSpawn | AtSessionOpen | AtHandshake | AtDiscovery.

Definition fails_at (process : ServerBehaviour) (stage : Stage) (e : Exc) : Prop :=
  match stage with
  | AtSpawn => stdio_aenter process = Raises e
  | AtSessionOpen =>
      stdio_aenter process = Returns tt /\ session_aenter process = Raises e
  | AtHandshake =>
      stdio_aenter process = Returns tt
      /\ exists s, session_aenter process = Returns s /\ initialize s = Raises e
  | AtDiscovery =>
      stdio_aenter process = Returns tt
      /\ exists s, session_aenter process = Returns s
                   /\ initialize s = Returns tt /\ list_tools s = Raises e
  end.

Definition acquired_before (stage : Stage) : list Resource :=
  match stage with
  | AtSpawn => []
  | AtSessionOpen => [StdioClient]
  | AtHandshake | AtDiscovery => [Session; StdioClient]
  end.

(** The [Release] events of a trace. *)
Definition releases (evs : list Event) : list (string * Resource) :=
  omap (fun ev => match ev with Release n r => Some (n, r) | _ => None end) evs.

(** The [print] calls of a trace. *)
Definition printed (evs : list Event) : list Message :=
  omap (fun ev => match ev with Printed m => Some m | _ => None end) evs.

(** The exception that closing the exit stack of a connection raises, if any. *)
Definition release_error (self : MCPServerConnection.t) : option Exc :=
  match MCPServerConnection.exit_stack self with
  | Some stack => snd (unwind stack None)
  | None => None
  end.

(** The reading of "every error raised during resource release is
    suppressed inside disconnect" and of "it is logged". *)
Definition release_error_suppressed (self : MCPServerConnection.t) : Prop :=
  exists evs self', MCPServerConnection.disconnect self = (evs, self', Returns tt).

Definition release_error_logged (self : MCPServerConnection.t) : Prop :=
  exists evs self' o,
    MCPServerConnection.disconnect self = (evs, self', o) /\ printed evs <> [].

(** A teardown fails with an error, as opposed to a system-exiting
    exception, when no context manager of the connection raises one of
    those on exit. *)
Definition teardown_errors_only (self : MCPServerConnection.t) : bool :=
  match MCPServerConnection.exit_stack self with
  | Some stack =>
      forallb
        (fun cm =>
           match cm_aexit cm with
           | Returns _ => true
           | Raises e => is_CancelledError e || is_Exception e
           end)
        stack
  | None => true
  end.

(** The connection object that the loop of the loader constructs for an
    entry, when it attempts a connection for it. *)
Definition attempted (environ : gmap string string) (item : string * ServerConfig)
    : option MCPServerConnection.t :=
  let '(server_name, server_config) := item in
  if match cfg_disabled server_config with Some b => b | None => false end then None
  else
    match cfg_command server_config with
    | Some command =>
        if truthy command then
          Some (MCPServerConnection.__init__ server_name command
                  (match cfg_args server_config with Some a => a | None => [] end)
                  (Some (resolve_env environ
                           (match cfg_env server_config with Some e => e | None => ∅ end))))
        else None
    | None => None
    end.

(** [connect()] returns, true or false, for the entry (or is not called). *)
Definition connect_returns (world : World) (environ : gmap string string)
    (item : string * ServerConfig) : bool :=
  match attempted environ item with
  | Some connection =>
      match MCPServerConnection.connect world connection with
      | (_, _, Returns _) => true
      | (_, _, Raises _) => false
      end
  | None => true
  end.

(** The connection of an entry as a successful [connect()] left it. *)
Definition connected (world : World) (environ : gmap string string)
    (item : string * ServerConfig) : option MCPServerConnection.t :=
  match attempted environ item with
  | Some connection =>
      match MCPServerConnection.connect world connection with
      | (_, connection', Returns true) => Some connection'
      | _ => None
      end
  | None => None
  end.

Definition successful_connections (world : World) (environ : gmap string string)
    (servers : list (string * ServerConfig)) : list MCPServerConnection.t :=
  omap (connected world environ) servers.

(** The reading of "the loader returns exactly the tools of the successful
    connections, in attempt order, and raises no exception". *)
Definition loads_successful_tools (world : World) (environ : gmap string string)
    (files : string -> ConfigFile) (config_path : string)
    (servers : list (string * ServerConfig)) (g : Globals) : Prop :=
  exists evs g',
    load_mcp_tools_async world environ files config_path g
    = (evs, g',
       Returns (flat_map MCPServerConnection.tools
                  (successful_connections world environ servers))).


(** The exceptions of a release that the handlers of [disconnect] let
    through to its caller. *)
Definition propagates (e : Exc) : bool :=
  match exc_class e with
  | CancelledError | OtherException => false
  | RuntimeError =>
      negb (contains "cancel scope" (exc_str e))
      && negb (contains "different task" (exc_str e))
  | SystemExiting => true
  end.

(** The servers for which a trace records a process launch. *)
Definition spawned (evs : list Event) : list string :=
  omap (fun ev => match ev with Spawn server _ => Some server | _ => None end) evs.

Definition option_list {X} (o : option X) : list X :=
  match o with
  | Some x => [x]
  | None => []
  end.

(** ** Concrete inputs *)

Import MCPServerConnection.

Definition env_placeholder : gmap string string := {["API_KEY" := "YOUR_API_KEY"]}.
Definition env_literal : gmap string string := {["API_KEY" := "sk-configured"]}.
Definition environ_set : gmap string string := {["API_KEY" := "sk-ambient"]}.
Definition environ_blank : gmap string string := {["API_KEY" := ""]}.
Definition environ_unset : gmap string string := ∅.

Definition exc_timeout : Exc :=
  {| exc_class := OtherException; exc_str := "timed out" |}.
Definition exc_cancelled : Exc :=
  {| exc_class := CancelledError; exc_str := "" |}.
Definition exc_handshake : Exc :=
  {| exc_class := OtherException; exc_str := "Connection closed" |}.
Definition exc_process_lookup : Exc :=
  {| exc_class := OtherException; exc_str := "ProcessLookupError" |}.
Definition exc_broken_pipe : Exc :=
  {| exc_class := OtherException; exc_str := "[Errno 32] Broken pipe" |}.
Definition exc_loop_closed : Exc :=
  {| exc_class := RuntimeError; exc_str := "Event loop is closed" |}.
Definition exc_cancel_scope : Exc :=
  {| exc_class := RuntimeError;
     exc_str := "Attempted to exit cancel scope in a different task than it was entered in" |}.

(** A session that answers every [call_tool] with [reply]. *)
Definition session_replying (reply : Outcome CallToolResult) : ClientSession :=
  {| initialize := Returns tt;
     list_tools := Returns {| listed_tools := [] |};
     call_tool := fun _ _ => reply |}.

Definition tool_replying (reply : Outcome CallToolResult) : MCPTool.t :=
  {| MCPTool._name := "search";
     MCPTool._description := "Search the index";
     MCPTool._parameters := JObject [];
     MCPTool._session := session_replying reply |}.

(** A response with a text fragment and an image fragment, flagged as error. *)
Definition response_flagged : CallToolResult :=
  {| result_content :=
       [ {| item_text := Some "no such index"; item_str := "type='text' text='no such index'" |};
         {| item_text := None; item_str := "type='image' mimeType='image/png'" |} ];
     isError := Some true |}.

Definition echo_descriptor : ToolDescriptor :=
  {| tool_name := "echo"; tool_description := Some "Echo the input"; inputSchema := None |}.

(** A session whose handshake has the given outcome and that lists one tool. *)
Definition session_with (handshake : Outcome unit) : ClientSession :=
  {| initialize := handshake;
     list_tools := Returns {| listed_tools := [echo_descriptor] |};
     call_tool := fun _ _ => Returns response_flagged |}.

(** A server that starts, shakes hands and lists its tool. *)
Definition server_up : ServerBehaviour :=
  {| stdio_aenter := Returns tt; stdio_aexit := Returns tt;
     session_aenter := Returns (session_with (Returns tt)); session_aexit := Returns tt |}.

(** A server that starts and rejects the handshake; its release succeeds. *)
Definition server_rejecting : ServerBehaviour :=
  {| stdio_aenter := Returns tt; stdio_aexit := Returns tt;
     session_aenter := Returns (session_with (Raises exc_handshake));
     session_aexit := Returns tt |}.

(** A server that dies during the handshake: terminating the process, which
    is gone, raises when the stdio context manager exits. *)
Definition server_dying : ServerBehaviour :=
  {| stdio_aenter := Returns tt; stdio_aexit := Raises exc_process_lookup;
     session_aenter := Returns (session_with (Raises exc_handshake));
     session_aexit := Returns tt |}.

(** A world with two servers: "A" behaves as given, every other one is up. *)
Definition world_ab (behaviour_of_a : ServerBehaviour) : World :=
  fun server _ => if String.eqb server "A" then behaviour_of_a else server_up.

Definition entry (command0 : string) : ServerConfig :=
  {| cfg_disabled := None; cfg_command := Some command0;
     cfg_args := None; cfg_env := None |}.



Definition servers_ab : list (string * ServerConfig) :=
  [("A", entry "node"); ("B", entry "npx")].

Definition files_ab : string -> ConfigFile :=
  fun _ => File (Returns (Some servers_ab)).

Definition no_connections : Globals := {| _mcp_connections := [] |}.

(** A world with three servers: "A" rejects the handshake, "C" behaves as
    given, every other one is up. *)
Definition world_abc (behaviour_of_c : ServerBehaviour) : World :=
  fun server _ =>
    if String.eqb server "A" then server_rejecting
    else if String.eqb server "C" then behaviour_of_c
    else server_up.

Definition servers_abc : list (string * ServerConfig) :=
  [("A", entry "node"); ("B", entry "npx"); ("C", entry "uvx")].

Definition files_abc : string -> ConfigFile :=
  fun _ => File (Returns (Some servers_abc)).

(** A connected connection, as [connect] leaves it, whose two context
    managers exit with the given outcomes. *)
Definition open_connection (server : string) (stdio_exit session_exit : Outcome unit)
    : MCPServerConnection.t :=
  {| name := server; command := "npx"; args := []; env := ∅;
     session := Some (session_with (Returns tt));
     exit_stack :=
       Some [ {| cm_owner := server; cm_resource := Session; cm_aexit := session_exit |};
              {| cm_owner := server; cm_resource := StdioClient; cm_aexit := stdio_exit |} ];
     tools := [] |}.

(** The registry at exit: "A" fails to close with an error that [disconnect]
    raises again, "B" is cancelled while closing, "C" closes. *)
Definition connections_at_exit : Globals :=
  {| _mcp_connections :=
       [ open_connection "A" (Raises exc_loop_closed) (Returns tt);
         open_connection "B" (Returns tt) (Raises exc_cancelled);
         open_connection "C" (Returns tt) (Returns tt) ] |}.

(** ** Loading the .env file (_load_env_for_mcp, lines 18-33) *)

(** A path, as its components. *)
Definition Path := list string.

(** [p.parent]. *)
Definition parent (p : Path) : Path := removelast p.

(** What the candidates are computed from: [Path.cwd()], [Path.home()] and
    [Path(__file__)]. *)
Record Locations := {
  cwd : Path;
  home : Path;
  module_file : Path
}.

(** The list [env_paths], in the order of the source. *)
Definition env_paths (at_ : Locations) : list Path :=
  [ cwd at_ ++ ["mini_agent"; "config"; ".env"];
    home at_ ++ [".mini-agent"; "config"; ".env"];
    parent (parent (module_file at_)) ++ ["config"; ".env"];
    cwd at_ ++ [".env"] ].

(** The loop [for env_path in env_paths: if env_path.exists():
    load_dotenv(env_path); break]; the result lists the calls of
    [load_dotenv]. *)
Fixpoint load_first_existing (exists_ : Path -> bool) (paths : list Path) : list Path :=
  match paths with
  | [] => []
  | env_path :: rest =>
      if exists_ env_path then [env_path]
      else load_first_existing exists_ rest
  end.

(** [def _load_env_for_mcp()]. *)
Definition _load_env_for_mcp (at_ : Locations) (exists_ : Path -> bool) : list Path :=
  load_first_existing exists_ (env_paths at_).

(** ** Further vocabulary *)

(** The wrapper that [connect] builds for a listed tool: the name of the
    descriptor, its description or the empty string, its schema or the empty
    object, and the session of the connection. *)
Definition wrap_tool (session0 : ClientSession) (tool : ToolDescriptor) : MCPTool.t :=
  {| MCPTool._name := tool_name tool;
     MCPTool._description :=
       match tool_description tool with
       | Some d => d
       | None => ""
       end;
     MCPTool._parameters :=
       match inputSchema tool with
       | Some schema => schema
       | None => JObject []
       end;
     MCPTool._session := session0 |}.

(** The context manager that [connect] enters for a resource. *)
Definition context_manager (world : World) (self : MCPServerConnection.t) (r : Resource)
    : ContextManager :=
  {| cm_owner := name self;
     cm_resource := r;
     cm_aexit :=
       match r with
       | StdioClient => stdio_aexit (world (name self) (server_params self))
       | Session => session_aexit (world (name self) (server_params self))
       end |}.

(** A connection as a successful [connect] leaves it: it has a session and
    its exit stack holds its session over its stdio transport. *)
Definition well_connected (c : MCPServerConnection.t) : Prop :=
  session c <> None
  /\ exists session_exit stdio_exit,
       exit_stack c
       = Some [ {| cm_owner := name c; cm_resource := Session; cm_aexit := session_exit |};
                {| cm_owner := name c; cm_resource := StdioClient; cm_aexit := stdio_exit |} ].

(** The names of the entries for which the loader attempts a connection,
    in the order of the configuration. *)
Definition attempted_names (environ : gmap string string)
    (servers : list (string * ServerConfig)) : list string :=
  map name (omap (attempted environ) servers).

(** The configurations on which the loader has nothing to load: no file, a
    file whose reading fails with an [Exception], a document without the
    ["mcpServers"] key or with no server under it. *)
Definition nothing_to_load (file : ConfigFile) : bool :=
  match file with
  | NoFile => true
  | File (Raises e) => is_Exception e
  | File (Returns None) => true
  | File (Returns (Some [])) => true
  | File (Returns (Some (_ :: _))) => false
  | Inaccessible _ => false
  end.

(** ** Further inputs *)

(** A server whose handshake is cancelled. *)
Definition server_cancelled : ServerBehaviour :=
  {| stdio_aenter := Returns tt; stdio_aexit := Returns tt;
     session_aenter := Returns (session_with (Raises exc_cancelled));
     session_aexit := Returns tt |}.

Definition entry_disabled : ServerConfig :=
  {| cfg_disabled := Some true; cfg_command := Some "npx";
     cfg_args := None; cfg_env := None |}.

Definition files_missing : string -> ConfigFile := fun _ => NoFile.

Definition exc_name_too_long : Exc :=
  {| exc_class := OtherException; exc_str := "[Errno 36] File name too long" |}.

Definition files_inaccessible : string -> ConfigFile :=
  fun _ => Inaccessible exc_name_too_long.

Definition exc_interrupt : Exc :=
  {| exc_class := SystemExiting; exc_str := "KeyboardInterrupt" |}.

Definition project_locations : Locations :=
  {| cwd := ["work"; "project"];
     home := ["home"; "user"];
     module_file := ["site-packages"; "mini_agent"; "tools"; "mcp_loader.py"] |}.

(** Only the [.env] of the home directory and the one of the working
    directory exist. *)
Definition home_and_cwd_env (p : Path) : bool :=
  bool_decide (p = ["home"; "user"; ".mini-agent"; "config"; ".env"])
  || bool_decide (p = ["work"; "project"; ".env"]).

(** * Properties *)

(** Runs [connect] symbolically, down to the outcomes of the server. *)
Ltac run_connect :=
  unfold connect, try_except, bind, get, modify, emit, print, await, ret, raise,
    on_exit_stack, enter_async_context, aclose; simpl.

(** ** Strings *)

Lemma startswith_spec (s p : string) :
  startswith s p = true <-> exists rest, s = p +:+ rest.
Proof.
  unfold startswith. revert s.
  induction p as [|a p IH]; intros s; simpl.
  - split; [intros _; by exists s | by destruct s].
  - destruct s as [|b s]; simpl.
    + split; [done | intros [rest Hrest]; discriminate].
    + destruct (Ascii.ascii_dec a b) as [->|Hne].
      * rewrite IH. split; intros [rest Hrest]; exists rest.
        -- by rewrite Hrest.
        -- by injection Hrest.
      * split; [done | intros [rest Hrest]; injection Hrest; congruence].
Qed.

Lemma truthy_spec (s : string) : truthy s = true <-> s <> "".
Proof. by destruct s. Qed.

Lemma not_placeholder_test (value : string) :
  value <> "" -> ~ placeholder_shaped value ->
  negb (truthy value) || startswith value "YOUR_" || startswith value "your-" = false.
Proof.
  intros Hne Hshape.
  apply truthy_spec in Hne. rewrite Hne. simpl.
  apply orb_false_intro; apply not_true_is_false; rewrite startswith_spec;
    intros [rest Hrest]; apply Hshape; exists rest; auto.
Qed.

Lemma placeholder_test (value : string) :
  value = "" \/ placeholder_shaped value ->
  negb (truthy value) || startswith value "YOUR_" || startswith value "your-" = true.
Proof.
  intros [-> | [rest [Hrest | Hrest]]]; [done | |].
  - apply orb_true_intro. left. apply orb_true_intro. right.
    apply startswith_spec. by exists rest.
  - apply orb_true_intro. right. apply startswith_spec. by exists rest.
Qed.

(** ** Environment resolution *)

Section Resolution.
Variable environ : gmap string string.

Lemma resolve_env_lookup (env : gmap string string) (key : string) :
  resolve_env environ env !! key = resolve_value environ key <$> env !! key.
Proof.
  unfold resolve_env.
  apply (map_fold_weak_ind
           (fun (r m : gmap string string) =>
              r !! key = resolve_value environ key <$> m !! key)).
  - by rewrite !lookup_empty.
  - intros i x m r _ IH.
    destruct (decide (i = key)) as [->|Hne].
    + by rewrite !lookup_insert_eq.
    + by rewrite !lookup_insert_ne.
Qed.

Lemma resolve_env_dom (env : gmap string string) (key : string) :
  resolve_env environ env !! key = None <-> env !! key = None.
Proof. rewrite resolve_env_lookup. by destruct (env !! key). Qed.

End Resolution.

(** C5. An entry whose value is non-empty and not placeholder-shaped is
    resolved to its literal configured value whatever the ambient
    environment is: two runs that differ only in the ambient environment
    resolve it identically. *)
Theorem literal_value_verbatim (environ environ' env : gmap string string)
    (key value : string) :
  env !! key = Some value ->
  value <> "" ->
  ~ placeholder_shaped value ->
  resolve_env environ env !! key = Some value
  /\ resolve_env environ env !! key = resolve_env environ' env !! key.
Proof.
  intros Hkey Hne Hshape.
  assert (Hlit : forall amb, resolve_env amb env !! key = Some value).
  { intros amb. rewrite resolve_env_lookup, Hkey. simpl.
    unfold resolve_value. by rewrite not_placeholder_test. }
  by rewrite !Hlit.
Qed.

Lemma literal_value_verbatim_witness :
  resolve_env environ_set env_literal !! "API_KEY" = Some "sk-configured"
  /\ resolve_env environ_set env_literal !! "API_KEY"
     = resolve_env environ_unset env_literal !! "API_KEY".
Proof.
  apply (literal_value_verbatim _ _ _ "API_KEY" "sk-configured").
  - reflexivity.
  - discriminate.
  - intros [rest [H | H]]; discriminate.
Defined.

(** C4, as stated, fails: the ambient environment defines [API_KEY] with an
    empty value, and the placeholder is kept instead of that value. *)
Lemma ambient_substituted_counterexample :
  env_placeholder !! "API_KEY" = Some "YOUR_API_KEY"
  /\ placeholder_shaped "YOUR_API_KEY"
  /\ environ_blank !! "API_KEY" = Some ""
  /\ ~ ambient_substituted environ_blank env_placeholder "API_KEY" "YOUR_API_KEY".
Proof.
  split; [reflexivity|]. split; [by exists "API_KEY"; left|].
  split; [reflexivity|].
  unfold ambient_substituted. rewrite resolve_env_lookup.
  vm_compute. discriminate.
Qed.

(** C4, amended. For an entry whose value is empty or placeholder-shaped:
    an ambient value that is defined and not empty is substituted; when the
    ambient environment does not define the key, or defines it empty, the
    original literal value passes through unchanged; so the resolved value
    is blank only where the configured value was, and resolution is total. *)
Theorem placeholder_resolved_from_ambient (environ env : gmap string string)
    (key value : string) :
  env !! key = Some value ->
  value = "" \/ placeholder_shaped value ->
  (forall ambient, environ !! key = Some ambient -> ambient <> "" ->
     resolve_env environ env !! key = Some ambient)
  /\ (environ !! key = None \/ environ !! key = Some "" ->
      resolve_env environ env !! key = Some value)
  /\ (resolve_env environ env !! key = Some "" -> value = "").
Proof.
  intros Hkey Hshape.
  rewrite resolve_env_lookup, Hkey. simpl.
  unfold resolve_value, os_getenv. rewrite (placeholder_test _ Hshape).
  split; [|split].
  - intros ambient -> Hne. apply truthy_spec in Hne. by rewrite Hne.
  - by intros [-> | ->].
  - destruct (environ !! key) as [ambient|]; [|congruence].
    destruct ambient; simpl; congruence.
Qed.

Lemma placeholder_resolved_from_ambient_witness :
  resolve_env environ_set env_placeholder !! "API_KEY" = Some "sk-ambient"
  /\ resolve_env environ_unset env_placeholder !! "API_KEY" = Some "YOUR_API_KEY".
Proof.
  split.
  - apply (placeholder_resolved_from_ambient _ _ "API_KEY" "YOUR_API_KEY");
      [reflexivity | right; by exists "API_KEY"; left | reflexivity | discriminate].
  - apply (placeholder_resolved_from_ambient environ_unset _ "API_KEY" "YOUR_API_KEY");
      [reflexivity | right; by exists "API_KEY"; left | by left].
Defined.

(** ** MCPTool.execute *)

Lemma collect_parts_from (items : list ContentItem) (parts : list string) :
  fold_left
    (fun content_parts item =>
       match item_text item with
       | Some text => content_parts ++ [text]
       | None => content_parts ++ [item_str item]
       end)
    items parts
  = parts ++ map render_fragment items.
Proof.
  revert parts.
  induction items as [|item items IH]; intros parts; simpl.
  - by rewrite app_nil_r.
  - rewrite IH. unfold render_fragment at 2.
    destruct (item_text item); by rewrite <- app_assoc.
Qed.

Lemma collect_parts_map (items : list ContentItem) :
  MCPTool.collect_parts items = map render_fragment items.
Proof. unfold MCPTool.collect_parts. by rewrite collect_parts_from. Qed.

(** What [execute] does with each outcome of the remote call. *)
Lemma execute_returns (tool : MCPTool.t) (kwargs : list (string * JSON))
    (response : CallToolResult) :
  call_tool (MCPTool._session tool) (MCPTool._name tool) kwargs = Returns response ->
  MCPTool.execute tool kwargs tt
  = ([], tt,
     Returns
       {| success := negb (match isError response with Some b => b | None => false end);
          content := join newline (map render_fragment (result_content response));
          error := if negb (match isError response with Some b => b | None => false end)
                   then None else Some "Tool returned error" |}).
Proof.
  intros Hcall.
  unfold MCPTool.execute, try_except, bind, await, ret.
  rewrite Hcall. simpl. by rewrite collect_parts_map.
Qed.

Lemma execute_raises (tool : MCPTool.t) (kwargs : list (string * JSON)) (e : Exc) :
  call_tool (MCPTool._session tool) (MCPTool._name tool) kwargs = Raises e ->
  MCPTool.execute tool kwargs tt
  = ([], tt,
     if is_Exception e
     then Returns {| success := false; content := "";
                     error := Some ("MCP tool execution failed: " +:+ exc_str e) |}
     else Raises e).
Proof.
  intros Hcall.
  unfold MCPTool.execute, try_except, bind, await, ret.
  rewrite Hcall. simpl. by destruct (is_Exception e).
Qed.

(** C9. Whatever the response, and whether or not its error flag is set,
    [execute] returns a result whose content is the fragments of the
    response joined by newline, a fragment with a text attribute giving that
    text and any other fragment its generic string rendering. *)
Theorem content_is_joined_fragments (tool : MCPTool.t) (kwargs : list (string * JSON))
    (response : CallToolResult) :
  call_tool (MCPTool._session tool) (MCPTool._name tool) kwargs = Returns response ->
  exists r,
    MCPTool.execute tool kwargs tt = ([], tt, Returns r)
    /\ content r = join newline (map render_fragment (result_content response)).
Proof.
  intros Hcall. rewrite (execute_returns _ _ _ Hcall). eauto.
Qed.

Lemma content_is_joined_fragments_witness :
  exists r,
    MCPTool.execute (tool_replying (Returns response_flagged)) [] tt = ([], tt, Returns r)
    /\ content r
       = "no such index" +:+ newline +:+ "type='image' mimeType='image/png'".
Proof.
  apply (content_is_joined_fragments
           (tool_replying (Returns response_flagged)) [] response_flagged).
  reflexivity.
Defined.

(** C6, as stated, fails twice: a timeout is converted to a failed result
    whose error message is not the exception's message (a fixed prefix comes
    before it), and a cancellation raised during the call is not converted
    at all: it propagates to the caller of [execute]. *)
Lemma converted_to_failure_counterexample :
  ~ converted_to_failure (tool_replying (Raises exc_timeout)) [] exc_timeout
  /\ ~ converted_to_failure (tool_replying (Raises exc_cancelled)) [] exc_cancelled
  /\ MCPTool.execute (tool_replying (Raises exc_cancelled)) [] tt
     = ([], tt, Raises exc_cancelled).
Proof.
  split; [|split].
  - intros (r & Hexec & _ & Herror).
    vm_compute in Hexec. injection Hexec as <-. discriminate Herror.
  - intros (r & Hexec & _). vm_compute in Hexec. discriminate Hexec.
  - reflexivity.
Qed.

(** C6, amended. When the response carries the error flag, the result has
    [success = false] and the fixed error message; when the call raises an
    exception of class [Exception] (a closed channel, a timeout), [execute]
    returns a result with [success = false], empty content and the error
    message "MCP tool execution failed: " followed by the exception's
    message; an exception outside [Exception], such as a cancellation,
    propagates. *)
Theorem execute_failure_results (tool : MCPTool.t) (kwargs : list (string * JSON)) :
  (forall response,
     call_tool (MCPTool._session tool) (MCPTool._name tool) kwargs = Returns response ->
     isError response = Some true ->
     exists r, MCPTool.execute tool kwargs tt = ([], tt, Returns r)
               /\ success r = false /\ error r = Some "Tool returned error")
  /\ (forall e,
        call_tool (MCPTool._session tool) (MCPTool._name tool) kwargs = Raises e ->
        is_Exception e = true ->
        MCPTool.execute tool kwargs tt
        = ([], tt,
           Returns {| success := false; content := "";
                      error := Some ("MCP tool execution failed: " +:+ exc_str e) |}))
  /\ (forall e,
        call_tool (MCPTool._session tool) (MCPTool._name tool) kwargs = Raises e ->
        is_Exception e = false ->
        MCPTool.execute tool kwargs tt = ([], tt, Raises e)).
Proof.
  split; [|split].
  - intros response Hcall Hflag.
    rewrite (execute_returns _ _ _ Hcall), Hflag. eauto.
  - intros e Hcall Hclass. by rewrite (execute_raises _ _ _ Hcall), Hclass.
  - intros e Hcall Hclass. by rewrite (execute_raises _ _ _ Hcall), Hclass.
Qed.

Lemma execute_failure_results_witness :
  (exists r, MCPTool.execute (tool_replying (Returns response_flagged)) [] tt
             = ([], tt, Returns r)
             /\ success r = false /\ error r = Some "Tool returned error")
  /\ MCPTool.execute (tool_replying (Raises exc_timeout)) [] tt
     = ([], tt,
        Returns {| success := false; content := "";
                   error := Some "MCP tool execution failed: timed out" |})
  /\ MCPTool.execute (tool_replying (Raises exc_cancelled)) [] tt
     = ([], tt, Raises exc_cancelled).
Proof.
  split; [|split].
  - apply (proj1 (execute_failure_results
                    (tool_replying (Returns response_flagged)) []) response_flagged);
      reflexivity.
  - apply (proj1 (proj2 (execute_failure_results
                           (tool_replying (Raises exc_timeout)) [])) exc_timeout);
      reflexivity.
  - apply (proj2 (proj2 (execute_failure_results
                           (tool_replying (Raises exc_cancelled)) [])) exc_cancelled);
      reflexivity.
Defined.

(** ** Laws of computations *)

Section Laws.
Context {S A B : Type}.

Lemma bind_get (k : S -> M S B) (s : S) : bind get k s = k s s.
Proof. unfold bind, get. by destruct (k s s) as [[? ?] ?]. Qed.

Lemma bind_modify (f : S -> S) (k : unit -> M S B) (s : S) :
  bind (modify f) k s = k tt (f s).
Proof. unfold bind, modify. by destruct (k tt (f s)) as [[? ?] ?]. Qed.

Lemma bind_emit (ev : Event) (k : unit -> M S B) (s : S) :
  bind (emit ev) k s
  = (ev :: fst (fst (k tt s)), snd (fst (k tt s)), snd (k tt s)).
Proof. unfold bind, emit. by destruct (k tt s) as [[? ?] ?]. Qed.

Lemma try_except_trace (m : M S A) clauses (s : S) :
  exists rest, fst (fst (try_except m clauses s)) = fst (fst (m s)) ++ rest.
Proof.
  unfold try_except. destruct (m s) as [[ev1 s1] [a|e]]; simpl.
  - exists []. by rewrite app_nil_r.
  - destruct (dispatch clauses e s1) as [[ev2 s2] o2]. simpl. eauto.
Qed.

End Laws.

(** A loop over objects whose body returns on each of them visits them all. *)
Lemma for_each_returns {X} (body : M X unit) (objs : list X) :
  Forall (fun obj => snd (body obj) = Returns tt) objs ->
  for_each body objs
  = (flat_map (fun obj => fst (fst (body obj))) objs,
     map (fun obj => snd (fst (body obj))) objs,
     Returns tt).
Proof.
  induction 1 as [|obj rest Hobj _ IH]; simpl; [done|].
  destruct (body obj) as [[ev1 obj'] o]. simpl in *. subst o.
  by rewrite IH.
Qed.

(** ** Closing the exit stack *)

(** The exception that [aclose] raises was raised by one of the callbacks. *)
Lemma unwind_pending (callbacks : list ContextManager) (pending : option Exc) (e : Exc) :
  snd (unwind callbacks pending) = Some e ->
  pending = Some e \/ exists cm, In cm callbacks /\ cm_aexit cm = Raises e.
Proof.
  revert pending.
  induction callbacks as [|cm rest IH]; intros pending; simpl.
  - auto.
  - destruct (unwind rest _) as [evs final] eqn:Hrest. simpl. intros ->.
    specialize (IH (match cm_aexit cm with Returns _ => pending | Raises e0 => Some e0 end)).
    rewrite Hrest in IH. destruct (IH eq_refl) as [Hp | (cm' & Hin & Hcm)].
    + destruct (cm_aexit cm) eqn:Hcm; [by left|].
      right. exists cm. split; [by left | congruence].
    + right. exists cm'. auto.
Qed.

(** Every callback is released, whatever the others did. *)
Lemma unwind_events (callbacks : list ContextManager) (pending : option Exc) :
  fst (unwind callbacks pending)
  = map (fun cm => Release (cm_owner cm) (cm_resource cm)) callbacks.
Proof.
  revert pending.
  induction callbacks as [|cm rest IH]; intros pending; simpl; [done|].
  specialize (IH (match cm_aexit cm with Returns _ => pending | Raises e0 => Some e0 end)).
  destruct (unwind rest _) as [evs final]. simpl in *. by rewrite IH.
Qed.

Lemma printed_releases (callbacks : list ContextManager) :
  printed (map (fun cm => Release (cm_owner cm) (cm_resource cm)) callbacks) = [].
Proof. by induction callbacks. Qed.

(** ** MCPServerConnection.disconnect *)

Lemma disconnect_closed (self : MCPServerConnection.t) :
  exit_stack self = None -> disconnect self = ([], self, Returns tt).
Proof.
  intros H. unfold disconnect, bind, get. simpl. by rewrite H.
Qed.

Lemma disconnect_open (self : MCPServerConnection.t) (stack : AsyncExitStack) :
  exit_stack self = Some stack ->
  disconnect self
  = (map (fun cm => Release (cm_owner cm) (cm_resource cm)) stack,
     set_session None (set_exit_stack None self),
     match snd (unwind stack None) with
     | Some e => if propagates e then Raises e else Returns tt
     | None => Returns tt
     end).
Proof.
  intros H. unfold disconnect, bind, get. simpl. rewrite H.
  unfold try_finally, try_except, on_exit_stack, aclose. rewrite H.
  rewrite <- (unwind_events stack None).
  destruct (unwind stack None) as [evs [e|]]; simpl.
  - unfold propagates, is_CancelledError, is_RuntimeError, is_Exception.
    destruct e as [[] msg]; simpl; rewrite ?app_nil_r; try reflexivity.
    destruct (negb (contains "cancel scope" msg) && negb (contains "different task" msg));
      simpl; by rewrite ?app_nil_r.
  - by rewrite ?app_nil_r.
Qed.

(** C2, as stated, fails twice. A connection whose process handle raises
    "Event loop is closed", a [RuntimeError], when it is released: the
    error is not suppressed, [disconnect] raises it again. A connection
    whose release fails with a broken pipe: the error is suppressed, and
    nothing is logged. *)
Lemma release_error_counterexample :
  release_error (open_connection "A" (Raises exc_loop_closed) (Returns tt))
    = Some exc_loop_closed
  /\ ~ release_error_suppressed (open_connection "A" (Raises exc_loop_closed) (Returns tt))
  /\ release_error (open_connection "A" (Raises exc_broken_pipe) (Returns tt))
     = Some exc_broken_pipe
  /\ ~ release_error_logged (open_connection "A" (Raises exc_broken_pipe) (Returns tt)).
Proof.
  split; [reflexivity|]. split; [|split; [reflexivity|]].
  - intros (evs & self' & Hrun). vm_compute in Hrun. discriminate Hrun.
  - intros (evs & self' & o & Hrun & Hlog). vm_compute in Hrun.
    injection Hrun as <- _ _. by apply Hlog.
Qed.

(** C2, amended. [disconnect] is idempotent: on a closed connection (exit
    stack absent) it is a no-op, and it always leaves the connection closed,
    with its session cleared when it was open. An error raised during the
    release is suppressed when it is a cancellation, an exception that is not
    a [RuntimeError], or a [RuntimeError] whose message contains "cancel
    scope" or "different task"; a [RuntimeError] whose message contains
    neither is raised again to the caller, after the connection is closed.
    [disconnect] prints nothing. *)
Theorem disconnect_suppresses_release_errors (self : MCPServerConnection.t) :
  (exit_stack self = None -> disconnect self = ([], self, Returns tt))
  /\ (forall evs self' o,
        disconnect self = (evs, self', o) ->
        exit_stack self' = None
        /\ (exit_stack self <> None -> session self' = None)
        /\ disconnect self' = ([], self', Returns tt)
        /\ printed evs = []
        /\ (release_error self = None -> o = Returns tt)
        /\ (forall e, release_error self = Some e ->
              (exc_class e = CancelledError -> o = Returns tt)
              /\ (exc_class e = OtherException -> o = Returns tt)
              /\ (exc_class e = RuntimeError ->
                  contains "cancel scope" (exc_str e) = true
                  \/ contains "different task" (exc_str e) = true ->
                  o = Returns tt)
              /\ (exc_class e = RuntimeError ->
                  contains "cancel scope" (exc_str e) = false ->
                  contains "different task" (exc_str e) = false ->
                  o = Raises e))).
Proof.
  split; [apply disconnect_closed|].
  intros evs self' o Hrun. unfold release_error.
  destruct (exit_stack self) as [stack|] eqn:Hstack.
  - rewrite (disconnect_open _ _ Hstack) in Hrun. injection Hrun as <- <- <-.
    split; [done|]. split; [done|]. split; [by apply disconnect_closed|].
    split; [apply printed_releases|].
    split; [by intros ->|].
    intros e ->. unfold propagates.
    repeat split.
    + by intros ->.
    + by intros ->.
    + intros -> [-> | ->]; simpl; [done|]. by rewrite andb_false_r.
    + by intros -> -> ->.
  - rewrite (disconnect_closed _ Hstack) in Hrun. injection Hrun as <- <- <-.
    split; [done|]. split; [done|]. split; [by apply disconnect_closed|].
    split; [done|]. split; [done|]. intros e He. discriminate He.
Qed.

Lemma disconnect_suppresses_release_errors_witness :
  disconnect (set_exit_stack None (open_connection "A" (Returns tt) (Returns tt)))
    = ([], set_exit_stack None (open_connection "A" (Returns tt) (Returns tt)), Returns tt)
  /\ snd (disconnect (open_connection "A" (Raises exc_cancel_scope) (Returns tt))) = Returns tt
  /\ snd (disconnect (open_connection "A" (Returns tt) (Raises exc_cancelled))) = Returns tt
  /\ snd (disconnect (open_connection "A" (Raises exc_loop_closed) (Returns tt)))
     = Raises exc_loop_closed.
Proof.
  split; [|split; [|split]].
  - apply (proj1 (disconnect_suppresses_release_errors _)). reflexivity.
  - destruct (proj2 (disconnect_suppresses_release_errors
                       (open_connection "A" (Raises exc_cancel_scope) (Returns tt)))
                _ _ _ eq_refl) as (_ & _ & _ & _ & _ & H).
    destruct (H exc_cancel_scope eq_refl) as (_ & _ & H3 & _).
    apply H3; [reflexivity | left; reflexivity].
  - destruct (proj2 (disconnect_suppresses_release_errors
                       (open_connection "A" (Returns tt) (Raises exc_cancelled)))
                _ _ _ eq_refl) as (_ & _ & _ & _ & _ & H).
    destruct (H exc_cancelled eq_refl) as (H1 & _).
    apply H1; reflexivity.
  - destruct (proj2 (disconnect_suppresses_release_errors
                       (open_connection "A" (Raises exc_loop_closed) (Returns tt)))
                _ _ _ eq_refl) as (_ & _ & _ & _ & _ & H).
    destruct (H exc_loop_closed eq_refl) as (_ & _ & _ & H4).
    apply H4; reflexivity.
Defined.

(** ** MCPServerConnection.connect *)

(** The first thing [connect] does is to launch the process, with the
    parameters built from the connection. *)
Lemma connect_spawns_first (world : World) (self : MCPServerConnection.t) :
  exists evs, fst (fst (connect world self)) = Spawn (name self) (server_params self) :: evs.
Proof.
  unfold connect.
  match goal with |- context [try_except ?m ?h self] =>
    destruct (try_except_trace m h self) as [rest ->] end.
  rewrite bind_get, bind_modify, bind_emit. simpl. eauto.
Qed.

(** C10. For a connection constructed, as the loader does, from a resolved
    env mapping: when the mapping is empty the process launcher receives
    [None] as environment, not an empty mapping; when it is not empty the
    launcher receives the mapping itself; and these are the parameters with
    which [connect] launches the process. *)
Theorem empty_env_passed_as_None (world : World) (server_name command0 : string)
    (args0 : list string) (resolved_env : gmap string string) :
  (resolved_env = ∅ ->
   sp_env (server_params (__init__ server_name command0 args0 (Some resolved_env))) = None)
  /\ (resolved_env <> ∅ ->
      sp_env (server_params (__init__ server_name command0 args0 (Some resolved_env)))
      = Some resolved_env)
  /\ exists evs,
       fst (fst (connect world (__init__ server_name command0 args0 (Some resolved_env))))
       = Spawn server_name
           (server_params (__init__ server_name command0 args0 (Some resolved_env))) :: evs.
Proof.
  split; [|split].
  - intros ->. reflexivity.
  - intros Hne. unfold server_params, __init__. simpl.
    destruct (decide (resolved_env = ∅)); [done|]. simpl.
    by destruct (decide (resolved_env = ∅)).
  - apply connect_spawns_first.
Qed.

Lemma empty_env_passed_as_None_witness :
  sp_env (server_params (__init__ "A" "node" [] (Some environ_unset))) = None
  /\ sp_env (server_params (__init__ "A" "node" [] (Some env_literal))) = Some env_literal.
Proof.
  split.
  - apply (proj1 (empty_env_passed_as_None (world_ab server_up) "A" "node" [] environ_unset)).
    reflexivity.
  - apply (proj1 (proj2 (empty_env_passed_as_None (world_ab server_up) "A" "node" []
                           env_literal))).
    discriminate.
Defined.

(** Where the release itself succeeds, a failure of class [Exception] at any
    stage makes [connect] return false, after the context managers entered
    so far were released, the most recent first, and the exit stack dropped. *)
Lemma connect_failure_returns_false (world : World) (self : MCPServerConnection.t)
    (stage : Stage) (e : Exc) :
  fails_at (world (name self) (server_params self)) stage e ->
  is_Exception e = true ->
  stdio_aexit (world (name self) (server_params self)) = Returns tt ->
  session_aexit (world (name self) (server_params self)) = Returns tt ->
  exists evs self',
    connect world self = (evs, self', Returns false)
    /\ exit_stack self' = None
    /\ releases evs = map (pair (name self)) (acquired_before stage).
Proof.
  intros Hfail Hclass Hstdio Hsession.
  destruct stage; simpl in Hfail.
  - run_connect. rewrite Hfail. simpl. rewrite Hclass. simpl. eauto.
  - destruct Hfail as [H1 H2]. run_connect. rewrite H1. simpl. rewrite H2. simpl.
    rewrite Hclass. simpl. rewrite Hstdio. simpl. eauto.
  - destruct Hfail as [H1 (s & H2 & H3)]. run_connect. rewrite H1. simpl.
    rewrite H2. simpl. rewrite H3. simpl.
    rewrite Hclass. simpl. rewrite Hstdio, Hsession. simpl. eauto.
  - destruct Hfail as [H1 (s & H2 & H3 & H4)]. run_connect. rewrite H1. simpl.
    rewrite H2. simpl. rewrite H3. simpl. rewrite H4. simpl.
    rewrite Hclass. simpl. rewrite Hstdio, Hsession. simpl. eauto.
Qed.

(** C3, at a failing input. The server dies during the handshake, so the
    handshake fails with an [Exception]; the handler of [connect] closes the
    exit stack, the exit of the stdio context manager raises, and [connect]
    raises that exception instead of returning false. Both context managers
    were released; the exit stack is left in place, closed. *)
Theorem connect_raises_when_release_fails :
  fails_at (world_ab server_dying "A" (server_params (__init__ "A" "node" [] (Some ∅))))
    AtHandshake exc_handshake
  /\ is_Exception exc_handshake = true
  /\ connect (world_ab server_dying) (__init__ "A" "node" [] (Some ∅))
     = ([Spawn "A" {| sp_command := "node"; sp_args := []; sp_env := None |};
         OpenSession "A"; Handshake "A";
         Printed (MsgConnectFailed "A" exc_handshake);
         Release "A" Session; Release "A" StdioClient],
        set_exit_stack (Some [])
          (set_session (Some (session_with (Raises exc_handshake)))
             (__init__ "A" "node" [] (Some ∅))),
        Raises exc_process_lookup).
Proof.
  split; [|split; [reflexivity|]].
  - split; [reflexivity|]. exists (session_with (Raises exc_handshake)). split; reflexivity.
  - reflexivity.
Qed.

(** ** load_mcp_tools_async *)

Section Loading.
Variable world : World.
Variable environ : gmap string string.

Lemma load_server_returns (item : string * ServerConfig) (all_tools : list MCPTool.t)
    (g : Globals) :
  connect_returns world environ item = true ->
  exists evs,
    load_server world environ item all_tools g
    = (evs,
       {| _mcp_connections :=
            _mcp_connections g ++ option_list (connected world environ item) |},
       Returns (all_tools ++ flat_map tools (option_list (connected world environ item)))).
Proof.
  destruct item as [server_name server_config], g as [conns].
  unfold connect_returns, connected, attempted, load_server.
  destruct (match cfg_disabled server_config with Some b => b | None => false end).
  { intros _. eexists. unfold bind, print, emit, ret. simpl. by rewrite !app_nil_r. }
  destruct (cfg_command server_config) as [command0|].
  2:{ intros _. eexists. unfold bind, print, emit, ret. simpl. by rewrite !app_nil_r. }
  destruct (truthy command0).
  2:{ intros _. eexists. unfold bind, print, emit, ret. simpl. by rewrite !app_nil_r. }
  unfold bind, call_on.
  destruct (connect world _) as [[evs connection'] [[]|e]]; [| |done]; intros _;
    eexists; unfold modify, ret; simpl; by rewrite ?app_nil_r.
Qed.

Lemma load_loop_returns (servers : list (string * ServerConfig)) :
  forall (all_tools : list MCPTool.t) (g : Globals),
    forallb (connect_returns world environ) servers = true ->
    exists evs,
      for_fold servers all_tools (load_server world environ) g
      = (evs,
         {| _mcp_connections :=
              _mcp_connections g ++ successful_connections world environ servers |},
         Returns (all_tools
                  ++ flat_map tools (successful_connections world environ servers))).
Proof.
  induction servers as [|item rest IH]; intros all_tools g Hret; simpl.
  - exists []. destruct g. unfold ret. simpl. by rewrite !app_nil_r.
  - apply andb_prop in Hret as [Hitem Hrest].
    destruct (load_server_returns item all_tools g Hitem) as [ev1 Hstep].
    unfold bind. rewrite Hstep.
    edestruct IH as [ev2 ->]; [exact Hrest|]. simpl.
    eexists. unfold successful_connections. simpl.
    destruct (connected world environ item); simpl; rewrite <- ?app_assoc; simpl;
      rewrite ?app_nil_r; reflexivity.
Qed.

End Loading.

(** C1, as stated, fails. The [connect] of server "A" returns false and
    the one of server "B" returns true. When the [connect] of a third server
    "C" is cancelled during the handshake, the cancellation passes through
    the loader, which raises it. When "C" dies during the handshake and its
    release raises, so that its [connect] raises, the handler of the loader
    returns the empty list, although "B" is connected. *)
Lemma loads_successful_tools_counterexample :
  (exists a b,
     attempted environ_unset ("A", entry "node") = Some a
     /\ attempted environ_unset ("B", entry "npx") = Some b
     /\ snd (connect (world_abc server_cancelled) a) = Returns false
     /\ snd (connect (world_abc server_cancelled) b) = Returns true
     /\ snd (connect (world_abc server_dying) a) = Returns false
     /\ snd (connect (world_abc server_dying) b) = Returns true)
  /\ ~ loads_successful_tools (world_abc server_cancelled) environ_unset files_abc
         "mcp.json" servers_abc no_connections
  /\ snd (load_mcp_tools_async (world_abc server_cancelled) environ_unset files_abc
            "mcp.json" no_connections)
     = Raises exc_cancelled
  /\ ~ loads_successful_tools (world_abc server_dying) environ_unset files_abc
         "mcp.json" servers_abc no_connections
  /\ snd (load_mcp_tools_async (world_abc server_dying) environ_unset files_abc
            "mcp.json" no_connections)
     = Returns [].
Proof.
  split; [|split; [|split; [|split]]].
  - eexists _, _. split; [reflexivity|]. split; [reflexivity|].
    split_and!; reflexivity.
  - intros (evs & g' & Hrun). vm_compute in Hrun. discriminate Hrun.
  - reflexivity.
  - intros (evs & g' & Hrun). vm_compute in Hrun. discriminate Hrun.
  - reflexivity.
Qed.

(** C1, amended. For every sequence of server entries on which each call of
    [connect] returns, true or false: the loader returns, without raising,
    exactly the tools of the connections whose [connect] returned true, in
    the order of the attempts, and appends exactly those connections to the
    registry. A [connect] that returns false aborts nothing. *)
Theorem connect_failure_does_not_abort_loading (world : World)
    (environ : gmap string string) (files : string -> ConfigFile) (config_path : string)
    (servers : list (string * ServerConfig)) (g : Globals) :
  files config_path = File (Returns (Some servers)) ->
  forallb (connect_returns world environ) servers = true ->
  exists evs,
    load_mcp_tools_async world environ files config_path g
    = (evs,
       {| _mcp_connections :=
            _mcp_connections g ++ successful_connections world environ servers |},
       Returns (flat_map tools (successful_connections world environ servers))).
Proof.
  intros Hfile Hret. unfold load_mcp_tools_async. rewrite Hfile.
  unfold try_except, bind at 1, await.
  destruct servers as [|item rest].
  - eexists. destruct g. unfold bind, print, emit, ret; simpl. by rewrite app_nil_r.
  - destruct (load_loop_returns world environ (item :: rest) [] g Hret) as [evs Hloop].
    unfold bind. rewrite Hloop. unfold print, emit, ret. simpl. eauto.
Qed.

Lemma connect_failure_does_not_abort_loading_witness :
  exists evs,
    load_mcp_tools_async (world_ab server_rejecting) environ_unset files_ab "mcp.json"
      no_connections
    = (evs,
       {| _mcp_connections :=
            _mcp_connections no_connections
            ++ successful_connections (world_ab server_rejecting) environ_unset servers_ab |},
       Returns (flat_map tools
                  (successful_connections (world_ab server_rejecting) environ_unset
                     servers_ab))).
Proof.
  apply (connect_failure_does_not_abort_loading _ _ files_ab "mcp.json" servers_ab);
    reflexivity.
Defined.

(** Server "A" rejects the handshake, server "B" is up: the loader returns
    the one tool of "B". *)
Example loading_a_rejecting_b_up :
  snd (connect (world_ab server_rejecting) (__init__ "A" "node" [] (Some ∅)))
    = Returns false
  /\ snd (load_mcp_tools_async (world_ab server_rejecting) environ_unset files_ab "mcp.json"
            no_connections)
     = Returns [ {| MCPTool._name := "echo"; MCPTool._description := "Echo the input";
                    MCPTool._parameters := JObject [];
                    MCPTool._session := session_with (Returns tt) |} ].
Proof. split; reflexivity. Qed.

(** Server "A" dies during the handshake and its release raises: [connect]
    raises, the handler of the loader returns the empty list, and server "B"
    is never launched. *)
Example load_aborted_when_release_fails :
  load_mcp_tools_async (world_ab server_dying) environ_unset files_ab "mcp.json"
    no_connections
  = ([Spawn "A" {| sp_command := "node"; sp_args := []; sp_env := None |};
      OpenSession "A"; Handshake "A";
      Printed (MsgConnectFailed "A" exc_handshake);
      Release "A" Session; Release "A" StdioClient;
      Printed (MsgLoadError exc_process_lookup);
      Printed (MsgTraceback exc_process_lookup)],
     no_connections, Returns []).
Proof. reflexivity. Qed.


Section MissingCommand.
Variable world : World.
Variable environ : gmap string string.
Variable server_name : string.
Variable server_config : ServerConfig.
Hypothesis enabled :
  match cfg_disabled server_config with Some b => b | None => false end = false.
Hypothesis no_command :
  cfg_command server_config = None \/ cfg_command server_config = Some "".



End MissingCommand.



(** ** cleanup_mcp_connections *)

(** The guard of the loop catches whatever error [disconnect] raises. *)
Lemma guarded_disconnect_returns (self : MCPServerConnection.t) :
  teardown_errors_only self = true ->
  guarded_disconnect self
  = (fst (fst (disconnect self)), snd (fst (disconnect self)), Returns tt).
Proof.
  unfold teardown_errors_only, guarded_disconnect, try_except.
  destruct (exit_stack self) as [stack|] eqn:Hstack.
  - intros Hclean. rewrite (disconnect_open _ _ Hstack). simpl.
    destruct (snd (unwind stack None)) as [e|] eqn:Hpending; [|done].
    destruct (propagates e) eqn:Hprop; [|done].
    apply unwind_pending in Hpending as [? | (cm & Hin & Hcm)]; [done|].
    rewrite forallb_forall in Hclean. specialize (Hclean cm Hin).
    rewrite Hcm in Hclean. simpl. rewrite Hclean. simpl. by rewrite app_nil_r.
  - intros _. by rewrite (disconnect_closed _ Hstack).
Qed.

(** C7. Whatever errors the teardowns of the connections fail with
    (exceptions of class [Exception], cancellations):
    [cleanup_mcp_connections] calls [disconnect] on every connection of the
    registry, in order, the failure of one not preventing the next; it
    returns without raising and leaves the registry empty; and a second call
    in succession does nothing and returns. *)
Theorem cleanup_disconnects_every_connection (g : Globals) :
  forallb teardown_errors_only (_mcp_connections g) = true ->
  exists g',
    cleanup_mcp_connections g
    = (flat_map (fun connection => fst (fst (disconnect connection))) (_mcp_connections g),
       g', Returns tt)
    /\ _mcp_connections g' = []
    /\ cleanup_mcp_connections g' = ([], g', Returns tt).
Proof.
  intros Hclean. exists {| _mcp_connections := [] |}.
  split; [|split; reflexivity].
  rewrite forallb_forall in Hclean.
  unfold cleanup_mcp_connections, bind, on_connections, modify.
  rewrite for_each_returns.
  - simpl. rewrite app_nil_r. do 2 f_equal.
    induction (_mcp_connections g) as [|c rest IH]; simpl; [done|].
    rewrite IH by (intros x Hx; apply Hclean; by right).
    rewrite guarded_disconnect_returns; [done|]. apply Hclean. by left.
  - apply Forall_forall. intros c Hc.
    rewrite guarded_disconnect_returns; [done|].
    apply Hclean. by apply list_elem_of_In.
Qed.

Lemma cleanup_disconnects_every_connection_witness :
  exists g',
    cleanup_mcp_connections connections_at_exit
    = (flat_map (fun connection => fst (fst (disconnect connection)))
         (_mcp_connections connections_at_exit),
       g', Returns tt)
    /\ _mcp_connections g' = []
    /\ cleanup_mcp_connections g' = ([], g', Returns tt).
Proof.
  apply (cleanup_disconnects_every_connection connections_at_exit). reflexivity.
Defined.

(** The teardown of "A" raises out of [disconnect]; "B" and "C" are torn
    down all the same. *)
Example cleanup_at_exit :
  snd (disconnect (open_connection "A" (Raises exc_loop_closed) (Returns tt)))
    = Raises exc_loop_closed
  /\ fst (fst (cleanup_mcp_connections connections_at_exit))
     = [Release "A" Session; Release "A" StdioClient;
        Release "B" Session; Release "B" StdioClient;
        Release "C" Session; Release "C" StdioClient].
Proof. split; reflexivity. Qed.

(** * Further properties *)

Ltac settle :=
  simpl; rewrite ?app_nil_r; split_and!;
  try done; try (by intros ? [= <-]); try (by constructor).

(** ** More on the resolution of the environment *)

Section ResolutionMore.
Variable environ : gmap string string.

Lemma resolve_value_idempotent (key value : string) :
  resolve_value environ key (resolve_value environ key value)
  = resolve_value environ key value.
Proof.
  unfold resolve_value, os_getenv.
  destruct (negb (truthy value) || startswith value "YOUR_" || startswith value "your-")
    eqn:Hshape; [|by rewrite Hshape].
  destruct (environ !! key) as [ambient|]; [|by rewrite Hshape].
  destruct (truthy ambient) eqn:Htruthy; [|by rewrite Hshape].
  rewrite Htruthy. by destruct (negb true || _ || _).
Qed.

(** X1. The resolved mapping has exactly the configured keys: resolution
    drops no entry and adds none, whatever the ambient environment holds. *)
Theorem resolve_env_keeps_keys (env : gmap string string) :
  dom (resolve_env environ env) = dom env.
Proof.
  apply set_eq. intros key. rewrite !elem_of_dom, resolve_env_lookup.
  by rewrite is_Some_alt; destruct (env !! key).
Qed.

(** X2. Resolution is idempotent: resolving an already resolved mapping
    against the same ambient environment changes nothing. *)
Theorem resolve_env_idempotent (env : gmap string string) :
  resolve_env environ (resolve_env environ env) = resolve_env environ env.
Proof.
  apply map_eq. intros key. rewrite !resolve_env_lookup.
  destruct (env !! key) as [value|]; simpl; [|done].
  by rewrite resolve_value_idempotent.
Qed.

(** X3. A resolved value is the configured value of its key, or else the
    non-empty ambient value of that same key, and then the configured value
    was empty or placeholder-shaped. *)
Theorem resolved_value_origin (env : gmap string string) (key resolved : string) :
  resolve_env environ env !! key = Some resolved ->
  env !! key = Some resolved
  \/ (environ !! key = Some resolved /\ resolved <> ""
      /\ exists value, env !! key = Some value
                       /\ (value = "" \/ placeholder_shaped value)).
Proof.
  rewrite resolve_env_lookup.
  destruct (env !! key) as [value|] eqn:Hkey; simpl; [|done].
  unfold resolve_value, os_getenv.
  destruct (negb (truthy value) || startswith value "YOUR_" || startswith value "your-")
    eqn:Hshape; [|by left].
  destruct (environ !! key) as [ambient|]; [|by left].
  destruct (truthy ambient) eqn:Htruthy; [|by left].
  intros [= <-]. right. split; [done|]. split; [by apply truthy_spec|].
  exists value. split; [done|].
  apply orb_prop in Hshape as [Hshape | Hshape];
    [apply orb_prop in Hshape as [Hshape | Hshape]|].
  - left. by destruct value.
  - right. apply startswith_spec in Hshape as [rest ->]. exists rest. by left.
  - right. apply startswith_spec in Hshape as [rest ->]. exists rest. by right.
Qed.

End ResolutionMore.

Lemma resolved_value_origin_witness :
  env_placeholder !! "API_KEY" = Some "sk-ambient"
  \/ (environ_set !! "API_KEY" = Some "sk-ambient" /\ "sk-ambient" <> ""
      /\ exists value, env_placeholder !! "API_KEY" = Some value
                       /\ (value = "" \/ placeholder_shaped value)).
Proof.
  apply (resolved_value_origin environ_set env_placeholder "API_KEY" "sk-ambient").
  vm_compute. reflexivity.
Defined.

(** ** More on MCPTool.execute *)

(** X4. Whenever [execute] returns a result: the result is a success
    exactly when it carries no error message, and exactly when the remote
    call returned a response whose error flag is absent or false. *)
Theorem execute_success_iff_no_error (tool : MCPTool.t) (kwargs : list (string * JSON))
    (r : ToolResult) :
  snd (MCPTool.execute tool kwargs tt) = Returns r ->
  (success r = true <-> error r = None)
  /\ (success r = true <->
      exists response,
        call_tool (MCPTool._session tool) (MCPTool._name tool) kwargs = Returns response
        /\ isError response <> Some true).
Proof.
  destruct (call_tool (MCPTool._session tool) (MCPTool._name tool) kwargs)
    as [response|e] eqn:Hcall.
  - rewrite (execute_returns _ _ _ Hcall). simpl. intros [= <-]. simpl.
    destruct (isError response) as [[]|] eqn:Hflag; simpl.
    + split; [done|]. split; [done|]. intros (response' & [= <-] & Hne). congruence.
    + split; [done|]. split; [|done]. intros _. exists response. by rewrite Hflag.
    + split; [done|]. split; [|done]. intros _. exists response. by rewrite Hflag.
  - rewrite (execute_raises _ _ _ Hcall). simpl.
    destruct (is_Exception e); [|done]. intros [= <-]. simpl.
    split; [done|]. split; [done|]. by intros (response' & [=] & _).
Qed.

Lemma execute_success_iff_no_error_witness :
  (false = true <-> Some "MCP tool execution failed: timed out" = None)
  /\ (false = true <->
      exists response,
        call_tool (MCPTool._session (tool_replying (Raises exc_timeout)))
          (MCPTool._name (tool_replying (Raises exc_timeout))) []
        = Returns response
        /\ isError response <> Some true).
Proof.
  apply (execute_success_iff_no_error (tool_replying (Raises exc_timeout)) []
           {| success := false; content := "";
              error := Some "MCP tool execution failed: timed out" |}).
  reflexivity.
Defined.

(** ** More on MCPServerConnection.connect *)

Lemma for_in_append_tools {X} (f : X -> MCPTool.t) (xs : list X)
    (self : MCPServerConnection.t) :
  for_in xs (fun x => modify (fun self => set_tools (tools self ++ [f x]) self)) self
  = ([], set_tools (tools self ++ map f xs) self, Returns tt).
Proof.
  revert self. induction xs as [|x xs IH]; intros self; simpl.
  - unfold ret. rewrite app_nil_r. by destruct self.
  - unfold bind, modify at 1. rewrite IH. simpl. by rewrite <- app_assoc.
Qed.

Lemma for_in_print {S X} (msg : X -> Message) (xs : list X) (s : S) :
  for_in xs (fun x => print (msg x)) s
  = (map (fun x => Printed (msg x)) xs, s, Returns tt).
Proof.
  induction xs as [|x xs IH]; simpl; [done|].
  unfold bind, print at 1, emit at 1. by rewrite IH.
Qed.

Lemma releases_printed {X} (msg : X -> Message) (xs : list X) :
  releases (map (fun x => Printed (msg x)) xs) = [].
Proof. by induction xs. Qed.

Lemma spawned_printed {X} (msg : X -> Message) (xs : list X) :
  spawned (map (fun x => Printed (msg x)) xs) = [].
Proof. by induction xs. Qed.

Lemma spawned_app (evs1 evs2 : list Event) :
  spawned (evs1 ++ evs2) = spawned evs1 ++ spawned evs2.
Proof. apply omap_app. Qed.

(** The description [tool.description or ""] is the description itself
    when there is one. *)
Lemma wrap_tool_description (session0 : ClientSession) (tool : ToolDescriptor) :
  {| MCPTool._name := tool_name tool;
     MCPTool._description :=
       match tool_description tool with
       | Some d => if truthy d then d else ""
       | None => ""
       end;
     MCPTool._parameters :=
       match inputSchema tool with
       | Some schema => schema
       | None => JObject []
       end;
     MCPTool._session := session0 |}
  = wrap_tool session0 tool.
Proof.
  unfold wrap_tool. destruct (tool_description tool) as [[|]|]; reflexivity.
Qed.

Section Connect.
Variable world : World.
Variable self : MCPServerConnection.t.

(** The whole run of [connect] when every stage returns. *)
Lemma connect_success_run (session0 : ClientSession) (listed : ListToolsResult) :
  stdio_aenter (world (name self) (server_params self)) = Returns tt ->
  session_aenter (world (name self) (server_params self)) = Returns session0 ->
  initialize session0 = Returns tt ->
  list_tools session0 = Returns listed ->
  connect world self
  = ([Spawn (name self) (server_params self); OpenSession (name self);
      Handshake (name self); Discover (name self);
      Printed (MsgConnected (name self)
                 (length (tools self ++ map (wrap_tool session0) (listed_tools listed))))]
     ++ map (fun tool => Printed (MsgTool (MCPTool._name tool)
                                    (short_description (MCPTool._description tool))))
          (tools self ++ map (wrap_tool session0) (listed_tools listed)),
     set_tools (tools self ++ map (wrap_tool session0) (listed_tools listed))
       (set_session (Some session0)
          (set_exit_stack
             (Some [context_manager world self Session;
                    context_manager world self StdioClient])
             self)),
     Returns true).
Proof.
  intros Hstdio Hsession Hinit Hlist.
  run_connect. rewrite Hstdio. simpl. rewrite Hsession. simpl. rewrite Hinit. simpl.
  rewrite Hlist. simpl.
  match goal with |- context [for_in (listed_tools listed) ?body ?s] =>
    change (for_in (listed_tools listed) body s)
      with (for_in (listed_tools listed)
              (fun tool =>
                 modify (fun self0 =>
                           set_tools
                             (tools self0
                              ++ [{| MCPTool._name := tool_name tool;
                                     MCPTool._description :=
                                       match tool_description tool with
                                       | Some d => if truthy d then d else ""
                                       | None => ""
                                       end;
                                     MCPTool._parameters :=
                                       match inputSchema tool with
                                       | Some schema => schema
                                       | None => JObject []
                                       end;
                                     MCPTool._session := session0 |}]) self0)) s)
  end.
  rewrite for_in_append_tools. simpl.
  match goal with |- context [for_in ?xs ?body ?s] =>
    change (for_in xs body s)
      with (for_in xs
              (fun tool => print (MsgTool (MCPTool._name tool)
                                    (short_description (MCPTool._description tool)))) s)
  end.
  rewrite for_in_print. simpl. rewrite app_nil_r.
  rewrite (map_ext _ _ (wrap_tool_description session0)).
  reflexivity.
Qed.

(** Either every stage returns or the first one that does not raises. *)
Lemma stage_analysis :
  (exists session0 listed,
     stdio_aenter (world (name self) (server_params self)) = Returns tt
     /\ session_aenter (world (name self) (server_params self)) = Returns session0
     /\ initialize session0 = Returns tt
     /\ list_tools session0 = Returns listed)
  \/ exists stage e, fails_at (world (name self) (server_params self)) stage e.
Proof.
  destruct (stdio_aenter (world (name self) (server_params self))) as [[]|e] eqn:H1.
  2:{ right. exists AtSpawn, e. done. }
  destruct (session_aenter (world (name self) (server_params self)))
    as [session0|e] eqn:H2.
  2:{ right. exists AtSessionOpen, e. done. }
  destruct (initialize session0) as [[]|e] eqn:H3.
  2:{ right. exists AtHandshake, e. split; [done|]. by exists session0. }
  destruct (list_tools session0) as [listed|e] eqn:H4.
  2:{ right. exists AtDiscovery, e. split; [done|]. by exists session0. }
  left. by exists session0, listed.
Qed.

(** A failure outside [Exception] passes the handler by. *)
Lemma connect_not_caught (stage : Stage) (e : Exc) :
  fails_at (world (name self) (server_params self)) stage e ->
  is_Exception e = false ->
  exists evs self',
    connect world self = (evs, self', Raises e)
    /\ spawned evs = [name self]
    /\ releases evs = []
    /\ printed evs = []
    /\ exit_stack self' = Some (map (context_manager world self) (acquired_before stage)).
Proof.
  intros Hfail Hclass.
  destruct stage; simpl in Hfail.
  - run_connect. rewrite Hfail. simpl. rewrite Hclass. simpl. eauto 10.
  - destruct Hfail as [H1 H2]. run_connect. rewrite H1. simpl. rewrite H2. simpl.
    rewrite Hclass. simpl. eauto 10.
  - destruct Hfail as [H1 (s & H2 & H3)]. run_connect. rewrite H1. simpl.
    rewrite H2. simpl. rewrite H3. simpl. rewrite Hclass. simpl. eauto 10.
  - destruct Hfail as [H1 (s & H2 & H3 & H4)]. run_connect. rewrite H1. simpl.
    rewrite H2. simpl. rewrite H3. simpl. rewrite H4. simpl.
    rewrite Hclass. simpl. eauto 10.
Qed.

(** A failure of class [Exception] runs the handler, which closes the
    exit stack. *)
Lemma connect_caught (stage : Stage) (e : Exc) :
  fails_at (world (name self) (server_params self)) stage e ->
  is_Exception e = true ->
  exists evs self' o,
    connect world self = (evs, self', o)
    /\ spawned evs = [name self]
    /\ releases evs = map (pair (name self)) (acquired_before stage)
    /\ match snd (unwind (map (context_manager world self) (acquired_before stage)) None) with
       | None => o = Returns false /\ exit_stack self' = None
       | Some e' => o = Raises e' /\ exit_stack self' = Some []
       end.
Proof.
  intros Hfail Hclass.
  destruct stage; simpl in Hfail.
  - run_connect. rewrite Hfail. simpl. rewrite Hclass. simpl. eauto 10.
  - destruct Hfail as [H1 H2]. run_connect. rewrite H1. simpl. rewrite H2. simpl.
    rewrite Hclass. simpl.
    destruct (stdio_aexit _); simpl; eauto 10.
  - destruct Hfail as [H1 (s & H2 & H3)]. run_connect. rewrite H1. simpl.
    rewrite H2. simpl. rewrite H3. simpl. rewrite Hclass. simpl.
    destruct (session_aexit _); destruct (stdio_aexit _); simpl; eauto 10.
  - destruct Hfail as [H1 (s & H2 & H3 & H4)]. run_connect. rewrite H1. simpl.
    rewrite H2. simpl. rewrite H3. simpl. rewrite H4. simpl.
    rewrite Hclass. simpl.
    destruct (session_aexit _); destruct (stdio_aexit _); simpl; eauto 10.
Qed.

Lemma connect_true_stages (evs : list Event) (self' : MCPServerConnection.t) :
  connect world self = (evs, self', Returns true) ->
  exists session0 listed,
    stdio_aenter (world (name self) (server_params self)) = Returns tt
    /\ session_aenter (world (name self) (server_params self)) = Returns session0
    /\ initialize session0 = Returns tt
    /\ list_tools session0 = Returns listed.
Proof.
  intros Hrun.
  destruct stage_analysis as [Hok | (stage & e & Hfail)]; [done|].
  destruct (is_Exception e) eqn:Hclass.
  - destruct (connect_caught stage e Hfail Hclass)
      as (evs0 & self0 & o & Hrun0 & _ & _ & Hout).
    rewrite Hrun in Hrun0. injection Hrun0 as <- <- <-.
    destruct (snd (unwind _ None)); by destruct Hout.
  - destruct (connect_not_caught stage e Hfail Hclass) as (evs0 & self0 & Hrun0 & _).
    by rewrite Hrun in Hrun0.
Qed.

Lemma connect_spawned : spawned (fst (fst (connect world self))) = [name self].
Proof.
  destruct stage_analysis
    as [(session0 & listed & H1 & H2 & H3 & H4) | (stage & e & Hfail)].
  - rewrite (connect_success_run session0 listed H1 H2 H3 H4). simpl.
    by rewrite spawned_printed.
  - destruct (is_Exception e) eqn:Hclass.
    + by destruct (connect_caught stage e Hfail Hclass)
        as (evs & self' & o & -> & Hsp & _).
    + by destruct (connect_not_caught stage e Hfail Hclass)
        as (evs & self' & -> & Hsp & _).
Qed.

Lemma connect_true_well_connected (evs : list Event) (self' : MCPServerConnection.t) :
  connect world self = (evs, self', Returns true) ->
  well_connected self' /\ name self' = name self.
Proof.
  intros Hrun.
  destruct (connect_true_stages _ _ Hrun) as (session0 & listed & H1 & H2 & H3 & H4).
  rewrite (connect_success_run session0 listed H1 H2 H3 H4) in Hrun.
  injection Hrun as <- <-. split; [|done]. split; [done|]. simpl. eauto.
Qed.

End Connect.

(** X5. When the process starts, the session opens, the handshake and the
    listing return: [connect] returns true, having appended to [self.tools]
    one wrapper per listed tool, in the order of the listing, each with the
    name of its descriptor, its description or the empty string, its schema
    or the empty object, and bound to the session; the connection keeps the
    session, its exit stack holds the session over the stdio transport, and
    nothing has been released. *)
Theorem connect_wraps_listed_tools (world : World) (self : MCPServerConnection.t)
    (session0 : ClientSession) (listed : ListToolsResult) :
  stdio_aenter (world (name self) (server_params self)) = Returns tt ->
  session_aenter (world (name self) (server_params self)) = Returns session0 ->
  initialize session0 = Returns tt ->
  list_tools session0 = Returns listed ->
  exists evs self',
    connect world self = (evs, self', Returns true)
    /\ tools self' = tools self ++ map (wrap_tool session0) (listed_tools listed)
    /\ session self' = Some session0
    /\ exit_stack self'
       = Some [context_manager world self Session; context_manager world self StdioClient]
    /\ releases evs = [].
Proof.
  intros H1 H2 H3 H4.
  rewrite (connect_success_run world self session0 listed H1 H2 H3 H4).
  eexists _, _. split; [reflexivity|]. split_and!; try done.
  simpl. by rewrite releases_printed.
Qed.

Lemma connect_wraps_listed_tools_witness :
  exists evs self',
    connect (world_ab server_up) (__init__ "B" "npx" [] None) = (evs, self', Returns true)
    /\ tools self'
       = tools (__init__ "B" "npx" [] None)
         ++ map (wrap_tool (session_with (Returns tt)))
              (listed_tools {| listed_tools := [echo_descriptor] |})
    /\ session self' = Some (session_with (Returns tt))
    /\ exit_stack self'
       = Some [context_manager (world_ab server_up) (__init__ "B" "npx" [] None) Session;
               context_manager (world_ab server_up) (__init__ "B" "npx" [] None)
                 StdioClient]
    /\ releases evs = [].
Proof.
  apply (connect_wraps_listed_tools (world_ab server_up) (__init__ "B" "npx" [] None)
           (session_with (Returns tt)) {| listed_tools := [echo_descriptor] |});
    reflexivity.
Defined.

(** X6. [connect] returns true exactly when all four stages return: the
    process starts, the session opens, the handshake returns and the tools
    are listed. In every other case it returns false or raises. *)
Theorem connect_true_iff_every_stage_returns (world : World)
    (self : MCPServerConnection.t) :
  snd (connect world self) = Returns true
  <-> exists session0 listed,
        stdio_aenter (world (name self) (server_params self)) = Returns tt
        /\ session_aenter (world (name self) (server_params self)) = Returns session0
        /\ initialize session0 = Returns tt
        /\ list_tools session0 = Returns listed.
Proof.
  split.
  - destruct (connect world self) as [[evs self'] o] eqn:Hrun. simpl. intros ->.
    exact (connect_true_stages world self evs self' Hrun).
  - intros (session0 & listed & H1 & H2 & H3 & H4).
    by rewrite (connect_success_run world self session0 listed H1 H2 H3 H4).
Qed.

Lemma connect_true_iff_every_stage_returns_witness :
  exists session0 listed,
    stdio_aenter (world_ab server_up "B" (server_params (__init__ "B" "npx" [] None)))
    = Returns tt
    /\ session_aenter (world_ab server_up "B" (server_params (__init__ "B" "npx" [] None)))
       = Returns session0
    /\ initialize session0 = Returns tt
    /\ list_tools session0 = Returns listed.
Proof.
  apply (proj1 (connect_true_iff_every_stage_returns (world_ab server_up)
                  (__init__ "B" "npx" [] None))).
  reflexivity.
Defined.

(** X7. When [connect] returns false the connection is closed: some
    stage failed with an [Exception], the context managers entered before
    that stage are the ones that were released, the most recent first; the
    exit stack is gone, and a later [disconnect] does nothing, so no resource
    is released twice. *)
Theorem connect_false_leaves_closed (world : World) (self : MCPServerConnection.t)
    (evs : list Event) (self' : MCPServerConnection.t) :
  connect world self = (evs, self', Returns false) ->
  exit_stack self' = None
  /\ disconnect self' = ([], self', Returns tt)
  /\ exists stage e,
       fails_at (world (name self) (server_params self)) stage e
       /\ is_Exception e = true
       /\ releases evs = map (pair (name self)) (acquired_before stage).
Proof.
  intros Hrun.
  destruct (stage_analysis world self)
    as [(session0 & listed & H1 & H2 & H3 & H4) | (stage & e & Hfail)].
  - by rewrite (connect_success_run world self session0 listed H1 H2 H3 H4) in Hrun.
  - destruct (is_Exception e) eqn:Hclass.
    + destruct (connect_caught world self stage e Hfail Hclass)
        as (evs0 & self0 & o & Hrun0 & _ & Hrel & Hout).
      rewrite Hrun in Hrun0. injection Hrun0 as <- <- <-.
      destruct (snd (unwind _ None)); destruct Hout as [Ho Hstack]; [done|].
      split; [done|]. split; [by apply disconnect_closed|]. by exists stage, e.
    + destruct (connect_not_caught world self stage e Hfail Hclass)
        as (evs0 & self0 & Hrun0 & _).
      rewrite Hrun in Hrun0. done.
Qed.

Lemma connect_false_leaves_closed_witness :
  exit_stack (snd (fst (connect (world_ab server_rejecting) (__init__ "A" "node" [] None))))
  = None
  /\ disconnect (snd (fst (connect (world_ab server_rejecting)
                             (__init__ "A" "node" [] None))))
     = ([], snd (fst (connect (world_ab server_rejecting) (__init__ "A" "node" [] None))),
        Returns tt)
  /\ exists stage e,
       fails_at (world_ab server_rejecting (name (__init__ "A" "node" [] None))
                   (server_params (__init__ "A" "node" [] None))) stage e
       /\ is_Exception e = true
       /\ releases (fst (fst (connect (world_ab server_rejecting)
                                (__init__ "A" "node" [] None))))
          = map (pair (name (__init__ "A" "node" [] None))) (acquired_before stage).
Proof.
  apply (connect_false_leaves_closed (world_ab server_rejecting)
           (__init__ "A" "node" [] None)).
  reflexivity.
Defined.

(** X8. A failure that is not of class [Exception], such as a cancellation,
    at any stage of [connect]: [connect] raises it, prints nothing and
    releases nothing; the context managers entered so far stay on the exit
    stack of the connection. *)
Theorem cancelled_connect_releases_nothing (world : World) (self : MCPServerConnection.t)
    (stage : Stage) (e : Exc) :
  fails_at (world (name self) (server_params self)) stage e ->
  is_Exception e = false ->
  exists evs self',
    connect world self = (evs, self', Raises e)
    /\ releases evs = []
    /\ printed evs = []
    /\ exit_stack self' = Some (map (context_manager world self) (acquired_before stage)).
Proof.
  intros Hfail Hclass.
  destruct (connect_not_caught world self stage e Hfail Hclass)
    as (evs & self' & Hrun & _ & Hrel & Hprint & Hstack).
  by exists evs, self'.
Qed.

Lemma cancelled_connect_releases_nothing_witness :
  exists evs self',
    connect (world_ab server_cancelled) (__init__ "A" "node" [] None)
    = (evs, self', Raises exc_cancelled)
    /\ releases evs = []
    /\ printed evs = []
    /\ exit_stack self'
       = Some (map (context_manager (world_ab server_cancelled)
                      (__init__ "A" "node" [] None))
                 (acquired_before AtHandshake)).
Proof.
  apply (cancelled_connect_releases_nothing (world_ab server_cancelled)
           (__init__ "A" "node" [] None) AtHandshake exc_cancelled).
  - split; [reflexivity|]. exists (session_with (Raises exc_cancelled)).
    split; reflexivity.
  - reflexivity.
Defined.

(** X9. A failure of class [Exception] at any stage of [connect]: every
    context manager entered so far is released, the most recent first and
    each once, whatever their exits do; then [connect] returns false with
    its exit stack dropped, or raises an exception that one of those exits
    raised. *)
Theorem failed_connect_releases_entered (world : World) (self : MCPServerConnection.t)
    (stage : Stage) (e : Exc) :
  fails_at (world (name self) (server_params self)) stage e ->
  is_Exception e = true ->
  exists evs self' o,
    connect world self = (evs, self', o)
    /\ releases evs = map (pair (name self)) (acquired_before stage)
    /\ ((o = Returns false /\ exit_stack self' = None)
        \/ exists e' r,
             o = Raises e' /\ In r (acquired_before stage)
             /\ cm_aexit (context_manager world self r) = Raises e').
Proof.
  intros Hfail Hclass.
  destruct (connect_caught world self stage e Hfail Hclass)
    as (evs & self' & o & Hrun & _ & Hrel & Hout).
  exists evs, self', o. split; [done|]. split; [done|].
  destruct (snd (unwind _ None)) as [e'|] eqn:Hpending; destruct Hout as [-> Hstack].
  - right. apply unwind_pending in Hpending as [? | (cm & Hin & Hcm)]; [done|].
    apply in_map_iff in Hin as (r & <- & Hin). by exists e', r.
  - by left.
Qed.

Lemma failed_connect_releases_entered_witness :
  exists evs self' o,
    connect (world_ab server_dying) (__init__ "A" "node" [] None) = (evs, self', o)
    /\ releases evs
       = map (pair (name (__init__ "A" "node" [] None))) (acquired_before AtHandshake)
    /\ ((o = Returns false /\ exit_stack self' = None)
        \/ exists e' r,
             o = Raises e' /\ In r (acquired_before AtHandshake)
             /\ cm_aexit (context_manager (world_ab server_dying)
                            (__init__ "A" "node" [] None) r) = Raises e').
Proof.
  apply (failed_connect_releases_entered (world_ab server_dying)
           (__init__ "A" "node" [] None) AtHandshake exc_handshake).
  - split; [reflexivity|]. exists (session_with (Raises exc_handshake)).
    split; reflexivity.
  - reflexivity.
Defined.

(** X10. After a [connect] that succeeded, [disconnect] releases the
    session and then the stdio transport, each once and in that order,
    leaves the connection without exit stack and without session, and keeps
    its tools. *)
Theorem connect_then_disconnect (world : World) (self : MCPServerConnection.t)
    (session0 : ClientSession) (listed : ListToolsResult) :
  stdio_aenter (world (name self) (server_params self)) = Returns tt ->
  session_aenter (world (name self) (server_params self)) = Returns session0 ->
  initialize session0 = Returns tt ->
  list_tools session0 = Returns listed ->
  exists evs self' evs' self'' o,
    connect world self = (evs, self', Returns true)
    /\ disconnect self' = (evs', self'', o)
    /\ evs' = [Release (name self) Session; Release (name self) StdioClient]
    /\ exit_stack self'' = None /\ session self'' = None
    /\ tools self'' = tools self'.
Proof.
  intros H1 H2 H3 H4.
  rewrite (connect_success_run world self session0 listed H1 H2 H3 H4).
  eexists _, _, _, _, _. split; [reflexivity|].
  split; [by apply disconnect_open|]. done.
Qed.

Lemma connect_then_disconnect_witness :
  exists evs self' evs' self'' o,
    connect (world_ab server_up) (__init__ "B" "npx" [] None) = (evs, self', Returns true)
    /\ disconnect self' = (evs', self'', o)
    /\ evs' = [Release (name (__init__ "B" "npx" [] None)) Session;
               Release (name (__init__ "B" "npx" [] None)) StdioClient]
    /\ exit_stack self'' = None /\ session self'' = None
    /\ tools self'' = tools self'.
Proof.
  apply (connect_then_disconnect (world_ab server_up) (__init__ "B" "npx" [] None)
           (session_with (Returns tt)) {| listed_tools := [echo_descriptor] |});
    reflexivity.
Defined.

(** ** More on load_mcp_tools_async *)

Lemma try_except_Exception_returns {S A} (m : M S A) (handler : Exc -> M S A)
    (s : S) (e : Exc) :
  (forall e0 s0, exists evs s' a, handler e0 s0 = (evs, s', Returns a)) ->
  snd (try_except m [(is_Exception, handler)] s) = Raises e ->
  is_Exception e = false.
Proof.
  intros Hhandler. unfold try_except.
  destruct (m s) as [[ev1 s1] [a|e1]]; [done|]. simpl.
  destruct (is_Exception e1) eqn:Hclass.
  - destruct (Hhandler e1 s1) as (evs & s' & a & ->). done.
  - simpl. by intros [= <-].
Qed.

Section LoadInvariant.
Variable world : World.
Variable environ : gmap string string.

(** One iteration appends at most one connection, and only a connected one. *)
Lemma load_server_invariant (item : string * ServerConfig) (all_tools : list MCPTool.t)
    (g : Globals) :
  exists evs g' o added,
    load_server world environ item all_tools g = (evs, g', o)
    /\ _mcp_connections g' = _mcp_connections g ++ added
    /\ Forall well_connected added
    /\ spawned evs = attempted_names environ [item]
    /\ (forall tl, o = Returns tl -> tl = all_tools ++ flat_map tools added).
Proof.
  destruct item as [server_name server_config], g as [conns].
  unfold attempted_names, load_server. simpl. unfold attempted.
  destruct (match cfg_disabled server_config with Some b => b | None => false end).
  { eexists _, _, _, []. split; [reflexivity|]. settle. }
  destruct (cfg_command server_config) as [command0|].
  2:{ eexists _, _, _, []. split; [reflexivity|]. settle. }
  destruct (truthy command0).
  2:{ eexists _, _, _, []. split; [reflexivity|]. settle. }
  unfold bind, call_on. simpl.
  pose proof (connect_spawned world
                (__init__ server_name command0
                   match cfg_args server_config with Some a => a | None => [] end
                   (Some (resolve_env environ
                            match cfg_env server_config with Some e => e | None => ∅ end))))
    as Hspawn.
  destruct (connect world _) as [[evs connection'] [[]|e]] eqn:Hconn; simpl in Hspawn.
  - apply connect_true_well_connected in Hconn as [Hwell _].
    eexists _, _, _, [connection']. split; [reflexivity|]. settle.
  - eexists _, _, _, []. split; [reflexivity|]. settle.
  - eexists _, _, _, []. split; [reflexivity|]. settle.
Qed.

Lemma load_loop_invariant (servers : list (string * ServerConfig)) :
  forall (all_tools : list MCPTool.t) (g : Globals),
  exists evs g' o added,
    for_fold servers all_tools (load_server world environ) g = (evs, g', o)
    /\ _mcp_connections g' = _mcp_connections g ++ added
    /\ Forall well_connected added
    /\ spawned evs `prefix_of` attempted_names environ servers
    /\ (forall tl, o = Returns tl ->
          tl = all_tools ++ flat_map tools added
          /\ spawned evs = attempted_names environ servers).
Proof.
  induction servers as [|item rest IH]; intros all_tools g.
  - exists [], g, (Returns all_tools), []. settle.
  - destruct (load_server_invariant item all_tools g)
      as (ev1 & g1 & o1 & added1 & Hstep & Hconns1 & Hwell1 & Hsp1 & Htl1).
    assert (Hnames : attempted_names environ (item :: rest)
                     = attempted_names environ [item] ++ attempted_names environ rest).
    { unfold attempted_names. simpl. by destruct (attempted environ item). }
    simpl. unfold bind. rewrite Hstep.
    destruct o1 as [acc|e].
    + destruct (IH acc g1) as (ev2 & g2 & o2 & added2 & -> & Hconns2 & Hwell2 & Hsp2 & Htl2).
      exists (ev1 ++ ev2), g2, o2, (added1 ++ added2).
      split; [done|]. split; [by rewrite Hconns2, Hconns1, app_assoc|].
      split; [by apply Forall_app|].
      rewrite spawned_app, Hsp1, Hnames.
      split; [by apply prefix_app|].
      intros tl Ho. destruct (Htl2 tl Ho) as [-> ->].
      by rewrite (Htl1 acc eq_refl), flat_map_app, app_assoc.
    + exists ev1, g1, (Raises e), added1.
      split; [done|]. split; [done|]. split; [done|].
      rewrite Hsp1, Hnames. split; [by apply prefix_app_r|done].
Qed.

Variable files : string -> ConfigFile.
Variable config_path : string.

Lemma load_invariant (g : Globals) :
  exists evs g' o added,
    load_mcp_tools_async world environ files config_path g = (evs, g', o)
    /\ _mcp_connections g' = _mcp_connections g ++ added
    /\ Forall well_connected added
    /\ (forall tl, o = Returns tl ->
          forall tool, In tool tl -> exists c, In c added /\ In tool (tools c)).
Proof.
  unfold load_mcp_tools_async.
  destruct (files config_path) as [|[[servers|]|e]|e].
  - exists [Printed (MsgConfigNotFound config_path)], g, (Returns []), []. settle.
  - destruct servers as [|item rest].
    + exists [Printed MsgNoServers], g, (Returns []), []. settle.
    + destruct (load_loop_invariant (item :: rest) [] g)
        as (evs & g' & o & added & Hloop & Hconns & Hwell & _ & Htl).
      unfold try_except, bind at 1, await. unfold bind at 1. rewrite Hloop.
      destruct o as [all_tools|e].
      * eexists _, _, _, added. split; [reflexivity|]. settle.
        intros tl [= <-] tool Hin. destruct (Htl all_tools eq_refl) as [-> _].
        simpl in Hin. by apply in_flat_map in Hin.
      * simpl. destruct (is_Exception e).
        -- eexists _, _, _, added. split; [reflexivity|]. settle.
        -- eexists _, _, _, added. split; [reflexivity|]. settle.
  - exists [Printed MsgNoServers], g, (Returns []), []. settle.
  - unfold try_except, bind, await. simpl. destruct (is_Exception e).
    + eexists _, _, _, []. split; [reflexivity|]. settle.
    + eexists _, _, _, []. split; [reflexivity|]. settle.
  - exists [], g, (Raises e), []. settle.
Qed.

End LoadInvariant.

(** X11. Whatever the configuration and the servers do, and whether the
    loader returns or raises: it only appends to the registry, every
    connection that it appends is connected (it has a session and its exit
    stack holds the session over the stdio transport), and every tool that it
    returns belongs to one of the connections it appended. *)
Theorem load_registers_open_connections (world : World) (environ : gmap string string)
    (files : string -> ConfigFile) (config_path : string) (g : Globals) :
  exists added,
    _mcp_connections
      (snd (fst (load_mcp_tools_async world environ files config_path g)))
    = _mcp_connections g ++ added
    /\ Forall well_connected added
    /\ (forall tl,
          snd (load_mcp_tools_async world environ files config_path g) = Returns tl ->
          forall tool, In tool tl -> exists c, In c added /\ In tool (tools c)).
Proof.
  destruct (load_invariant world environ files config_path g)
    as (evs & g' & o & added & -> & Hconns & Hwell & Htools).
  by exists added.
Qed.

(** X12. The loader raises an exception of class [Exception] only when
    [config_file.exists()], which is called outside the [try], raises it:
    then the loader raises that exception at once, having printed nothing
    and changed nothing. Every [Exception] raised while the file is read or
    a server is connected ends in the handler, which returns. *)
Theorem load_raises_only_from_exists (world : World) (environ : gmap string string)
    (files : string -> ConfigFile) (config_path : string) (g : Globals) :
  (forall e,
     files config_path = Inaccessible e ->
     load_mcp_tools_async world environ files config_path g = ([], g, Raises e))
  /\ (forall e,
        snd (load_mcp_tools_async world environ files config_path g) = Raises e ->
        is_Exception e = true ->
        files config_path = Inaccessible e).
Proof.
  unfold load_mcp_tools_async. split.
  - by intros e ->.
  - intros e.
    destruct (files config_path) as [|contents|e0]; [done| |by intros [= ->]].
    intros Hraise Hclass.
    apply try_except_Exception_returns in Hraise; [congruence|].
    intros e1 g1. by eexists _, _, _.
Qed.

Lemma load_raises_only_from_exists_witness :
  load_mcp_tools_async (world_ab server_up) environ_unset files_inaccessible "mcp.json"
    no_connections
  = ([], no_connections, Raises exc_name_too_long)
  /\ files_inaccessible "mcp.json" = Inaccessible exc_name_too_long.
Proof.
  split.
  - apply (proj1 (load_raises_only_from_exists (world_ab server_up) environ_unset
                    files_inaccessible "mcp.json" no_connections)).
    reflexivity.
  - apply (proj2 (load_raises_only_from_exists (world_ab server_up) environ_unset
                    files_inaccessible "mcp.json" no_connections));
      reflexivity.
Defined.

(** X13. With no configuration file, a file whose reading fails with an
    [Exception], a document without "mcpServers" or with no server under it:
    the loader returns the empty list, prints a diagnostic, launches no
    process and leaves the registry as it was. *)
Theorem load_with_nothing_to_load (world : World) (environ : gmap string string)
    (files : string -> ConfigFile) (config_path : string) (g : Globals) :
  nothing_to_load (files config_path) = true ->
  exists evs,
    load_mcp_tools_async world environ files config_path g = (evs, g, Returns [])
    /\ printed evs <> []
    /\ spawned evs = [].
Proof.
  unfold load_mcp_tools_async, nothing_to_load.
  destruct (files config_path) as [|[[[|item rest]|]|e]|e]; try done; intros Hnone.
  - eexists. by split; [reflexivity|].
  - eexists. by split; [reflexivity|].
  - eexists. by split; [reflexivity|].
  - unfold try_except, bind, await. simpl. rewrite Hnone.
    eexists. by split; [reflexivity|].
Qed.

Lemma load_with_nothing_to_load_witness :
  exists evs,
    load_mcp_tools_async (world_ab server_up) environ_unset files_missing "mcp.json"
      connections_at_exit
    = (evs, connections_at_exit, Returns [])
    /\ printed evs <> []
    /\ spawned evs = [].
Proof.
  apply (load_with_nothing_to_load (world_ab server_up) environ_unset files_missing
           "mcp.json" connections_at_exit).
  reflexivity.
Defined.

(** X14. The loader launches processes only for the entries that are
    enabled and have a command, one process each and in the order of the
    configuration: the servers launched are always a prefix of those, and all
    of those when every [connect] returns. No server is launched twice. *)
Theorem load_launches_in_order (world : World) (environ : gmap string string)
    (files : string -> ConfigFile) (config_path : string)
    (servers : list (string * ServerConfig)) (g : Globals) :
  files config_path = File (Returns (Some servers)) ->
  spawned (fst (fst (load_mcp_tools_async world environ files config_path g)))
    `prefix_of` attempted_names environ servers
  /\ (forallb (connect_returns world environ) servers = true ->
      spawned (fst (fst (load_mcp_tools_async world environ files config_path g)))
      = attempted_names environ servers).
Proof.
  intros Hfile.
  destruct (load_loop_invariant world environ servers [] g)
    as (evs & g' & o & added & Hloop & _ & _ & Hprefix & Htl).
  assert (Hrun : spawned (fst (fst (load_mcp_tools_async world environ files
                                      config_path g)))
                 = spawned evs).
  { unfold load_mcp_tools_async. rewrite Hfile.
    destruct servers as [|item rest].
    - simpl in Hloop. by injection Hloop as <- _ _.
    - unfold try_except, bind at 1, await. unfold bind at 1. rewrite Hloop.
      destruct o as [all_tools|e]; simpl.
      + by rewrite ?app_nil_r, spawned_app, app_nil_r.
      + destruct (is_Exception e); simpl; [|by rewrite app_nil_r].
        by rewrite spawned_app, app_nil_r. }
  rewrite Hrun. split; [done|].
  intros Hret.
  destruct (load_loop_returns world environ servers [] g Hret) as [evs' Hloop'].
  rewrite Hloop in Hloop'. injection Hloop' as _ _ ->.
  by destruct (Htl _ eq_refl).
Qed.

Lemma load_launches_in_order_witness :
  spawned (fst (fst (load_mcp_tools_async (world_ab server_dying) environ_unset files_ab
                       "mcp.json" no_connections)))
    `prefix_of` attempted_names environ_unset servers_ab
  /\ spawned (fst (fst (load_mcp_tools_async (world_ab server_rejecting) environ_unset
                          files_ab "mcp.json" no_connections)))
     = attempted_names environ_unset servers_ab.
Proof.
  split.
  - apply (proj1 (load_launches_in_order (world_ab server_dying) environ_unset files_ab
                    "mcp.json" servers_ab no_connections eq_refl)).
  - apply (proj2 (load_launches_in_order (world_ab server_rejecting) environ_unset
                    files_ab "mcp.json" servers_ab no_connections eq_refl)).
    reflexivity.
Defined.

Section Skipping.
Variable world : World.
Variable environ : gmap string string.
Variable item : string * ServerConfig.
Variable notice : Message.
Hypothesis skipped :
  forall all_tools g,
    load_server world environ item all_tools g = ([Printed notice], g, Returns all_tools).

(** An entry whose iteration only prints may be removed from the list. *)
Lemma load_loop_skipping (before after : list (string * ServerConfig)) :
  forall (all_tools : list MCPTool.t) (g : Globals),
    snd (fst (for_fold (before ++ item :: after) all_tools (load_server world environ) g))
    = snd (fst (for_fold (before ++ after) all_tools (load_server world environ) g))
    /\ snd (for_fold (before ++ item :: after) all_tools (load_server world environ) g)
       = snd (for_fold (before ++ after) all_tools (load_server world environ) g)
    /\ spawned (fst (fst (for_fold (before ++ item :: after) all_tools
                            (load_server world environ) g)))
       = spawned (fst (fst (for_fold (before ++ after) all_tools
                              (load_server world environ) g))).
Proof.
  induction before as [|item0 before IH]; intros all_tools g; simpl; unfold bind.
  - rewrite skipped.
    by destruct (for_fold after all_tools (load_server world environ) g) as [[ev2 g2] o2].
  - destruct (load_server world environ item0 all_tools g) as [[ev1 g1] [acc|e]]; [|done].
    specialize (IH acc g1).
    destruct (for_fold (before ++ item :: after) acc (load_server world environ) g1)
      as [[evw gw] ow].
    destruct (for_fold (before ++ after) acc (load_server world environ) g1)
      as [[evo go] oo].
    simpl in *. destruct IH as (-> & -> & Hsp).
    by rewrite !spawned_app, Hsp.
Qed.

End Skipping.

(** X15. A disabled entry, whatever else it holds: no connection is
    constructed for it; its iteration prints the skip notice and nothing
    else; and a load over a list that contains the entry returns the same
    result, leaves the same registry and launches the same processes as the
    load over the list without it. *)
Theorem disabled_entry_skipped (world : World) (environ : gmap string string)
    (server_name : string) (server_config : ServerConfig) :
  cfg_disabled server_config = Some true ->
  attempted environ (server_name, server_config) = None
  /\ (forall all_tools g,
        load_server world environ (server_name, server_config) all_tools g
        = ([Printed (MsgSkipDisabled server_name)], g, Returns all_tools))
  /\ (forall before after all_tools g,
        snd (fst (for_fold (before ++ (server_name, server_config) :: after) all_tools
                    (load_server world environ) g))
        = snd (fst (for_fold (before ++ after) all_tools (load_server world environ) g))
        /\ snd (for_fold (before ++ (server_name, server_config) :: after) all_tools
                  (load_server world environ) g)
           = snd (for_fold (before ++ after) all_tools (load_server world environ) g)
        /\ spawned (fst (fst (for_fold (before ++ (server_name, server_config) :: after)
                                all_tools (load_server world environ) g)))
           = spawned (fst (fst (for_fold (before ++ after) all_tools
                                  (load_server world environ) g)))).
Proof.
  intros Hdisabled.
  assert (Hskip : forall all_tools g,
             load_server world environ (server_name, server_config) all_tools g
             = ([Printed (MsgSkipDisabled server_name)], g, Returns all_tools)).
  { intros all_tools g. unfold load_server. by rewrite Hdisabled. }
  split; [|split; [exact Hskip|]].
  - unfold attempted. by rewrite Hdisabled.
  - intros before after. by apply (load_loop_skipping _ _ _ _ Hskip).
Qed.

Lemma disabled_entry_skipped_witness :
  load_server (world_ab server_up) environ_unset ("B", entry_disabled) [] no_connections
  = ([Printed (MsgSkipDisabled "B")], no_connections, Returns []).
Proof.
  apply (proj1 (proj2 (disabled_entry_skipped (world_ab server_up) environ_unset "B"
                         entry_disabled eq_refl))).
Defined.

(** ** More on cleanup_mcp_connections *)

Lemma flat_map_ext_in {X Y} (f h : X -> list Y) (xs : list X) :
  (forall x, In x xs -> f x = h x) -> flat_map f xs = flat_map h xs.
Proof.
  induction xs as [|x xs IH]; intros Hext; simpl; [done|].
  rewrite (Hext x) by by left.
  rewrite IH; [done|]. intros y Hy. apply Hext. by right.
Qed.

(** The guard lets a system-exiting exception through. *)
Lemma guarded_disconnect_interrupted (self : MCPServerConnection.t) (e : Exc) :
  release_error self = Some e ->
  exc_class e = SystemExiting ->
  guarded_disconnect self
  = (fst (fst (disconnect self)), snd (fst (disconnect self)), Raises e).
Proof.
  unfold release_error, guarded_disconnect, try_except.
  destruct (exit_stack self) as [stack|] eqn:Hstack; [|done].
  intros Hrel Hclass. rewrite (disconnect_open _ _ Hstack), Hrel. simpl.
  unfold propagates, is_CancelledError, is_Exception. rewrite Hclass. simpl.
  rewrite Hclass. simpl. by rewrite app_nil_r.
Qed.

(** A loop over objects stops at the first one on which its body raises:
    the objects after it are not visited. *)
Lemma for_each_stops {X} (body : M X unit) (before after : list X) (obj : X) (e : Exc) :
  Forall (fun o => snd (body o) = Returns tt) before ->
  snd (body obj) = Raises e ->
  for_each body (before ++ obj :: after)
  = (flat_map (fun o => fst (fst (body o))) (before ++ [obj]),
     map (fun o => snd (fst (body o))) (before ++ [obj]) ++ after,
     Raises e).
Proof.
  intros Hbefore Hobj.
  induction Hbefore as [|o before Ho _ IH]; simpl.
  - destruct (body obj) as [[ev1 obj'] out]. simpl in *. subst out.
    by rewrite app_nil_r.
  - destruct (body o) as [[ev1 o'] out]. simpl in *. subst out. by rewrite IH.
Qed.

Lemma cleanup_returns (conns : list MCPServerConnection.t) :
  forallb teardown_errors_only conns = true ->
  cleanup_mcp_connections {| _mcp_connections := conns |}
  = (flat_map (fun connection => fst (fst (disconnect connection))) conns,
     {| _mcp_connections := [] |}, Returns tt).
Proof.
  intros Hclean. rewrite forallb_forall in Hclean.
  unfold cleanup_mcp_connections, bind, on_connections, modify. simpl.
  rewrite for_each_returns.
  - simpl. rewrite app_nil_r. do 2 f_equal.
    apply flat_map_ext_in. intros x Hx.
    by rewrite guarded_disconnect_returns by by apply Hclean.
  - apply Forall_forall. intros x Hx.
    rewrite guarded_disconnect_returns; [done|]. apply Hclean. by apply list_elem_of_In.
Qed.

Lemma disconnect_well_connected (c : MCPServerConnection.t) :
  well_connected c ->
  fst (fst (disconnect c)) = [Release (name c) Session; Release (name c) StdioClient].
Proof.
  intros (_ & session_exit & stdio_exit & Hstack).
  by rewrite (disconnect_open _ _ Hstack).
Qed.

(** X16. When the teardown of a connection raises a system-exiting
    exception (a keyboard interrupt), the teardowns before it having failed
    with errors at most: [cleanup_mcp_connections] raises that exception, the
    connections after it are not torn down, and the registry is not cleared:
    it holds the connections visited, now closed, followed by the others
    untouched. *)
Theorem cleanup_interrupted (before after : list MCPServerConnection.t)
    (c : MCPServerConnection.t) (e : Exc) :
  forallb teardown_errors_only before = true ->
  release_error c = Some e ->
  exc_class e = SystemExiting ->
  cleanup_mcp_connections {| _mcp_connections := before ++ c :: after |}
  = (flat_map (fun connection => fst (fst (disconnect connection))) (before ++ [c]),
     {| _mcp_connections :=
          map (fun connection => snd (fst (disconnect connection))) (before ++ [c])
          ++ after |},
     Raises e).
Proof.
  intros Hbefore Hrel Hclass. rewrite forallb_forall in Hbefore.
  unfold cleanup_mcp_connections, bind, on_connections. simpl.
  rewrite (for_each_stops guarded_disconnect before after c e).
  - do 2 f_equal.
    + rewrite !flat_map_app. simpl.
      rewrite (guarded_disconnect_interrupted c e Hrel Hclass). simpl. f_equal.
      apply flat_map_ext_in. intros x Hx.
      by rewrite guarded_disconnect_returns by by apply Hbefore.
    + f_equal. rewrite !map_app. simpl.
      rewrite (guarded_disconnect_interrupted c e Hrel Hclass). simpl. f_equal.
      f_equal. apply map_ext_in. intros x Hx.
      by rewrite guarded_disconnect_returns by by apply Hbefore.
  - apply Forall_forall. intros x Hx.
    rewrite guarded_disconnect_returns; [done|]. apply Hbefore. by apply list_elem_of_In.
  - by rewrite (guarded_disconnect_interrupted c e Hrel Hclass).
Qed.

Lemma cleanup_interrupted_witness :
  cleanup_mcp_connections
    {| _mcp_connections :=
         [open_connection "A" (Raises exc_loop_closed) (Returns tt)]
         ++ open_connection "B" (Raises exc_interrupt) (Returns tt)
            :: [open_connection "C" (Returns tt) (Returns tt)] |}
  = (flat_map (fun connection => fst (fst (disconnect connection)))
       ([open_connection "A" (Raises exc_loop_closed) (Returns tt)]
        ++ [open_connection "B" (Raises exc_interrupt) (Returns tt)]),
     {| _mcp_connections :=
          map (fun connection => snd (fst (disconnect connection)))
            ([open_connection "A" (Raises exc_loop_closed) (Returns tt)]
             ++ [open_connection "B" (Raises exc_interrupt) (Returns tt)])
          ++ [open_connection "C" (Returns tt) (Returns tt)] |},
     Raises exc_interrupt).
Proof.
  apply (cleanup_interrupted
           [open_connection "A" (Raises exc_loop_closed) (Returns tt)]
           [open_connection "C" (Returns tt) (Returns tt)]
           (open_connection "B" (Raises exc_interrupt) (Returns tt))
           exc_interrupt);
    reflexivity.
Defined.

(** X17. A load from the empty registry followed by a cleanup, the
    teardowns failing with errors at most: the cleanup releases, for each
    connection that the load registered and in the order of the registry, its
    session and then its stdio transport, each once; it returns and leaves
    the registry empty. This holds also when the load was aborted. *)
Theorem load_then_cleanup (world : World) (environ : gmap string string)
    (files : string -> ConfigFile) (config_path : string) :
  forallb teardown_errors_only
    (_mcp_connections
       (snd (fst (load_mcp_tools_async world environ files config_path no_connections))))
  = true ->
  cleanup_mcp_connections
    (snd (fst (load_mcp_tools_async world environ files config_path no_connections)))
  = (flat_map
       (fun connection =>
          [Release (name connection) Session; Release (name connection) StdioClient])
       (_mcp_connections
          (snd (fst (load_mcp_tools_async world environ files config_path
                       no_connections)))),
     {| _mcp_connections := [] |}, Returns tt).
Proof.
  destruct (load_invariant world environ files config_path no_connections)
    as (evs & g' & o & added & -> & Hconns & Hwell & _).
  simpl in *. destruct g' as [conns]. simpl in *. subst conns.
  intros Hclean. rewrite (cleanup_returns _ Hclean). do 2 f_equal.
  apply flat_map_ext_in. intros c Hc. apply disconnect_well_connected.
  rewrite Forall_forall in Hwell. apply Hwell. by apply list_elem_of_In.
Qed.

Lemma load_then_cleanup_witness :
  cleanup_mcp_connections
    (snd (fst (load_mcp_tools_async (world_ab server_rejecting) environ_unset files_ab
                 "mcp.json" no_connections)))
  = (flat_map
       (fun connection =>
          [Release (name connection) Session; Release (name connection) StdioClient])
       (_mcp_connections
          (snd (fst (load_mcp_tools_async (world_ab server_rejecting) environ_unset
                       files_ab "mcp.json" no_connections)))),
     {| _mcp_connections := [] |}, Returns tt).
Proof.
  apply (load_then_cleanup (world_ab server_rejecting) environ_unset files_ab "mcp.json").
  reflexivity.
Defined.

(** ** _load_env_for_mcp *)




(** The [.env] of the home directory is loaded, not the one of the working
    directory, when both exist and the package has none. *)
Example home_env_before_cwd_env :
  _load_env_for_mcp project_locations home_and_cwd_env
  = [["home"; "user"; ".mini-agent"; "config"; ".env"]].
Proof. reflexivity. Qed.
